(** * The skillpath-assessment autograder: a shallow embedding

    This development embeds [autograder/checks.py] and
    [autograder/run_grader.py] and states the grading pipeline's
    properties over the embedding.

    - The working directory is a finite map from entry names to their text.
    - Child processes are an oracle: the outcome of a command and what it
      leaves in the working directory.
    - Python exceptions are values of [exn]; every function that can raise
      returns a [result].
    - [re.search] is modelled by a parser for the pattern syntax the
      grader uses and a derivative-based matcher.
    - Python floats are IEEE-754 binary64 values ([spec_float] with
      precision 53 and maximal exponent 1024). *)

From Stdlib Require Import ZArith List Ascii String Bool Lia.
From Stdlib Require Import Floats.SpecFloat.
From stdpp Require Import gmap strings.

Local Open Scope string_scope.
Local Open Scope Z_scope.

(** ** Python strings *)

Module PyStr.

(** [sub in s] for two [str] values. *)
Fixpoint contains (sub s : string) : bool :=
  String.prefix sub s ||
  match s with
  | EmptyString => false
  | String _ s' => contains sub s'
  end.

(** [s.endswith(suffix)]. *)
Definition endswith (s suffix : string) : bool :=
  let n := String.length s in
  let k := String.length suffix in
  (k <=? n)%nat && String.eqb (String.substring (n - k) k s) suffix.

(** [s[-n:]] for a positive [n]: the last [n] characters, or all of [s]. *)
Definition tail (n : nat) (s : string) : string :=
  let len := String.length s in
  String.substring (len - n) n s.

(** [str.isspace] on one character whose code point is below 256; this is
    also what the pattern [\s] accepts. *)
Definition isspace (c : ascii) : bool :=
  let n := nat_of_ascii c in
  ((9 <=? n) && (n <=? 13) || (28 <=? n) && (n <=? 32)
   || (n =? 133) || (n =? 160))%nat.

(** [c.lower()] on an ASCII letter. *)
Definition lower_ascii (c : ascii) : ascii :=
  let n := nat_of_ascii c in
  if ((65 <=? n) && (n <=? 90))%nat then ascii_of_nat (n + 32) else c.

Fixpoint lower (s : string) : string :=
  match s with
  | EmptyString => EmptyString
  | String c s' => String (lower_ascii c) (lower s')
  end.

(** [' '.join(l)]. *)
Fixpoint join (sep : string) (l : list string) : string :=
  match l with
  | [] => ""
  | [x] => x
  | x :: l' => x ++ sep ++ join sep l'
  end.

Fixpoint lstrip (s : string) : string :=
  match s with
  | EmptyString => EmptyString
  | String c s' => if isspace c then lstrip s' else s
  end.

Fixpoint rstrip (s : string) : string :=
  match s with
  | EmptyString => EmptyString
  | String c s' =>
      match rstrip s' with
      | EmptyString => if isspace c then EmptyString else String c EmptyString
      | r => String c r
      end
  end.

(** [s.strip()]. *)
Definition strip (s : string) : string := rstrip (lstrip s).

Definition is_newline (c : ascii) : bool :=
  let n := nat_of_ascii c in ((n =? 10) || (n =? 13))%nat.

(** [f.readline()] at the start of a file opened in text mode, whose
    text is [s]: the first line with its terminator, which universal
    newlines turn into a line feed. *)
Fixpoint readline (s : string) : string :=
  match s with
  | EmptyString => EmptyString
  | String c s' =>
      if is_newline c then String (ascii_of_nat 10) EmptyString
      else String c (readline s')
  end.

End PyStr.

(** ** Regular expressions: the part of Python's [re] the grader uses *)

Module Re.

Inductive regex : Type :=
| Void : regex                      (* matches nothing *)
| Eps : regex                       (* matches the empty string *)
| Chr : ascii -> regex              (* one literal character *)
| Space : regex                     (* \s *)
| Cat : regex -> regex -> regex
| Alt : regex -> regex -> regex
| Star : regex -> regex.

(** [re.error], by message. *)
Inductive error : Type :=
| unterminated_subpattern   (* missing ), unterminated subpattern *)
| unbalanced_parenthesis
| nothing_to_repeat
| multiple_repeat
| bad_escape
| unsupported (c : ascii).  (* syntax outside the modelled subset *)

(** One parsed item of a sequence; the flag records that the item already
    carries a repetition operator. *)
Definition item : Type := regex * bool.

(** A sequence under construction, most recent item first, and the
    alternatives already closed by [|], most recent first. *)
Record frame : Type := { alts : list regex; items : list item }.

Definition empty_frame : frame := {| alts := []; items := [] |}.

Definition cat_items (l : list item) : regex :=
  fold_left (fun acc it => Cat (fst it) acc) l Eps.

Definition close_frame (f : frame) : regex :=
  fold_left (fun acc r => Alt r acc) (alts f) (cat_items (items f)).

Definition push (r : regex) (f : frame) : frame :=
  {| alts := alts f; items := (r, false) :: items f |}.

Definition repeat_last (plus : bool) (f : frame) : error + frame :=
  match items f with
  | [] => inl nothing_to_repeat
  | (_, true) :: _ => inl multiple_repeat
  | (r, false) :: rest =>
      let r' := if plus then Cat r (Star r) else Star r in
      inr {| alts := alts f; items := (r', true) :: rest |}
  end.

Definition is_meta (c : ascii) : bool :=
  existsb (Ascii.eqb c) (list_ascii_of_string ".^$?{}[]").

Definition is_alnum (c : ascii) : bool :=
  let n := nat_of_ascii c in
  ((48 <=? n) && (n <=? 57) || (65 <=? n) && (n <=? 90)
   || (97 <=? n) && (n <=? 122))%nat.

(** The parser reads the pattern left to right. [esc] says that the
    previous character was an unconsumed backslash; [cur] is the innermost
    open group and [stack] the groups around it. *)
Fixpoint parse_from (p : list ascii) (esc : bool) (cur : frame)
    (stack : list frame) : error + regex :=
  match p with
  | [] =>
      if esc then inl bad_escape
      else match stack with
           | [] => inr (close_frame cur)
           | _ :: _ => inl unterminated_subpattern
           end
  | c :: p' =>
      if esc then
        if Ascii.eqb c "s" then parse_from p' false (push Space cur) stack
        else if is_alnum c then inl (unsupported c)
        else parse_from p' false (push (Chr c) cur) stack
      else if Ascii.eqb c "\" then parse_from p' true cur stack
      else if Ascii.eqb c "(" then parse_from p' false empty_frame (cur :: stack)
      else if Ascii.eqb c ")" then
        match stack with
        | [] => inl unbalanced_parenthesis
        | parent :: stack' =>
            parse_from p' false (push (close_frame cur) parent) stack'
        end
      else if Ascii.eqb c "|" then
        parse_from p' false
          {| alts := cat_items (items cur) :: alts cur; items := [] |} stack
      else if Ascii.eqb c "*" then
        match repeat_last false cur with
        | inl e => inl e
        | inr cur' => parse_from p' false cur' stack
        end
      else if Ascii.eqb c "+" then
        match repeat_last true cur with
        | inl e => inl e
        | inr cur' => parse_from p' false cur' stack
        end
      else if is_meta c then inl (unsupported c)
      else parse_from p' false (push (Chr c) cur) stack
  end.

(** [re.compile(pattern)]. *)
Definition compile (pattern : string) : error + regex :=
  parse_from (list_ascii_of_string pattern) false empty_frame [].

Fixpoint nullable (r : regex) : bool :=
  match r with
  | Void => false
  | Eps => true
  | Chr _ => false
  | Space => false
  | Cat r1 r2 => nullable r1 && nullable r2
  | Alt r1 r2 => nullable r1 || nullable r2
  | Star _ => true
  end.

(** The derivative of [r] by the character [c]. *)
Fixpoint deriv (c : ascii) (r : regex) : regex :=
  match r with
  | Void => Void
  | Eps => Void
  | Chr d => if Ascii.eqb c d then Eps else Void
  | Space => if PyStr.isspace c then Eps else Void
  | Cat r1 r2 =>
      if nullable r1 then Alt (Cat (deriv c r1) r2) (deriv c r2)
      else Cat (deriv c r1) r2
  | Alt r1 r2 => Alt (deriv c r1) (deriv c r2)
  | Star r1 => Cat (deriv c r1) (Star r1)
  end.

(** Does some prefix of [s] match [r]? *)
Fixpoint match_prefix (r : regex) (s : list ascii) : bool :=
  nullable r ||
  match s with
  | [] => false
  | c :: s' => match_prefix (deriv c r) s'
  end.

(** Does a match of [r] start at some position of [s]? *)
Fixpoint search_from (r : regex) (s : list ascii) : bool :=
  match_prefix r s ||
  match s with
  | [] => false
  | _ :: s' => search_from r s'
  end.

(** [bool(re.search(pattern, s))], or the [re.error] of the pattern. *)
Definition search (pattern s : string) : error + bool :=
  match compile pattern with
  | inl e => inl e
  | inr r => inr (search_from r (list_ascii_of_string s))
  end.

End Re.

(** ** Exceptions and results *)

(** The Python exceptions the grader can meet. All of them derive from
    [Exception]. *)
Inductive exn : Type :=
| CheckError (msg : string)
| FileNotFoundError (path : string)
| ReError (e : Re.error)
| JSONDecodeError (msg : string)
| TypeError
| AttributeError
| ValueError
| OverflowError
| KeyError (key : string).

Inductive result (A : Type) : Type :=
| Ok (a : A)
| Raise (e : exn).
Arguments Ok {A} a.
Arguments Raise {A} e.

Definition is_CheckError (e : exn) : bool :=
  match e with CheckError _ => true | _ => false end.

Definition is_FileNotFoundError (e : exn) : bool :=
  match e with FileNotFoundError _ => true | _ => false end.

Definition re_error_str (e : Re.error) : string :=
  match e with
  | Re.unterminated_subpattern => "missing ), unterminated subpattern"
  | Re.unbalanced_parenthesis => "unbalanced parenthesis"
  | Re.nothing_to_repeat => "nothing to repeat"
  | Re.multiple_repeat => "multiple repeat"
  | Re.bad_escape => "bad escape (end of pattern)"
  | Re.unsupported c => "unsupported pattern syntax"
  end.

(** [str(e)]. *)
Definition exn_str (e : exn) : string :=
  match e with
  | CheckError msg => msg
  | FileNotFoundError path =>
      "[Errno 2] No such file or directory: '" ++ path ++ "'"
  | ReError e => re_error_str e
  | JSONDecodeError msg => msg
  | TypeError => "TypeError"
  | AttributeError => "AttributeError"
  | ValueError => "ValueError"
  | OverflowError => "OverflowError"
  | KeyError key => "'" ++ key ++ "'"
  end.

(** ** The working directory and the grader's monad *)

(** The entries of the working directory, by name, with their text. *)
Abbreviation dir := (gmap string string).

(** A computation reads and changes the working directory and returns a
    value or raises; the directory survives a raise. *)
Definition M (A : Type) : Type := dir -> result A * dir.

Definition ret {A} (a : A) : M A := fun w => (Ok a, w).

Definition raise {A} (e : exn) : M A := fun w => (Raise e, w).

Definition bind {A B} (m : M A) (k : A -> M B) : M B :=
  fun w =>
    match m w with
    | (Ok a, w') => k a w'
    | (Raise e, w') => (Raise e, w')
    end.

Notation "'let*' x ':=' m 'in' k" := (bind m (fun x => k))
  (at level 10, x pattern, m at level 100, k at level 200).

(** [try: m except E: h] where [handles] tells which exceptions [E]
    covers. *)
Definition try_except {A} (m : M A) (handles : exn -> bool)
    (h : exn -> M A) : M A :=
  fun w =>
    match m w with
    | (Ok a, w') => (Ok a, w')
    | (Raise e, w') => if handles e then h e w' else (Raise e, w')
    end.

Definition lift {A} (r : result A) : M A := fun w => (r, w).

Definition lift_re {A} (r : Re.error + A) : M A :=
  match r with
  | inl e => raise (ReError e)
  | inr a => ret a
  end.

(** [os.path.exists(path)]. *)
Definition path_exists (w : dir) (path : string) : bool :=
  bool_decide (is_Some (w !! path)).

Definition exists_ (path : string) : M bool :=
  fun w => (Ok (path_exists w path), w).

(** [open(path, 'r', encoding='utf-8').read()]. *)
Definition read_text (path : string) : M string :=
  fun w =>
    match w !! path with
    | Some s => (Ok s, w)
    | None => (Raise (FileNotFoundError path), w)
    end.

(** [os.remove(path)]. *)
Definition os_remove (path : string) : M unit :=
  fun w =>
    match w !! path with
    | Some _ => (Ok tt, delete path w)
    | None => (Raise (FileNotFoundError path), w)
    end.

(** [os.listdir('.')]. *)
Definition os_listdir : M (list string) :=
  fun w => (Ok (map fst (map_to_list w)), w).

(** [for x in l: body(x)]. *)
Fixpoint for_each {A} (l : list A) (body : A -> M unit) : M unit :=
  match l with
  | [] => ret tt
  | x :: l' => let* _ := body x in for_each l' body
  end.

(** ** Child processes *)

(** How [Popen.communicate(timeout=...)] ends. *)
Inductive outcome : Type :=
| Exited (returncode : Z) (out err : string)
| TimedOut.

Inductive language : Type := python | java.

Definition language_eqb (a b : language) : bool :=
  match a, b with
  | python, python | java, java => true
  | _, _ => false
  end.

Definition language_str (l : language) : string :=
  match l with python => "python" | java => "java" end.

(** ** Python floats: IEEE-754 binary64 *)

Module PyFloat.

Definition prec : Z := 53.
Definition emax : Z := 1024.

Abbreviation float := spec_float.

(** [float(n)] for an [int]: the nearest binary64 value, ties to even;
    [OverflowError] beyond the finite range. *)
Definition of_int (n : Z) : result float :=
  match binary_normalize prec emax n 0 false with
  | S754_infinity _ => Raise OverflowError
  | f => Ok f
  end.

Definition mul : float -> float -> float := SFmul prec emax.
Definition sub : float -> float -> float := SFsub prec emax.
Definition abs : float -> float := SFabs.
Definition leb : float -> float -> bool := SFleb.
Definition eqb : float -> float -> bool := SFeqb.

(** [int(x)]: truncation towards zero. *)
Definition to_int (x : float) : result Z :=
  match x with
  | S754_zero _ => Ok 0
  | S754_finite s m e =>
      let q := if 0 <=? e then Z.pos m * 2 ^ e else Z.pos m / 2 ^ (- e) in
      Ok (if s then - q else q)
  | S754_infinity _ => Raise OverflowError
  | S754_nan => Raise ValueError
  end.

(** The literals of the source, by their bits:
    [0.7 = 0x1.6666666666666p-1], [303.47 = 0x1.2f7851eb851ecp+8],
    [75.87 = 0x1.2f7ae147ae148p+6]. *)
Definition lit_0_7 : float := S754_finite false 6305039478318694 (-53).
Definition lit_303_47 : float := S754_finite false 5338700698898924 (-44).
Definition lit_75_87 : float := S754_finite false 5338876620759368 (-46).

(** The correctly rounded quotient [n / d] of two small integers, which is
    how a decimal literal [n/d] is read. *)
Definition decimal (n d : Z) : float :=
  SFdiv prec emax (binary_normalize prec emax n 0 false)
                  (binary_normalize prec emax d 0 false).

End PyFloat.

(** ** Values loaded by [json.load] *)

#[warnings="-register-all"]
Inductive json : Type :=
| JNull : json
| JBool : bool -> json
| JInt : Z -> json
| JFloat : spec_float -> json
| JStr : string -> json
| JArr : list json -> json
| JObj : list (string * json) -> json.   (* a dict, keys distinct *)

Module PyVal.

(** [d.get(key)] on the items of a dict; [None] is [None]. *)
Fixpoint dict_get (key : string) (d : list (string * json)) : option json :=
  match d with
  | [] => None
  | (k, v) :: d' => if String.eqb k key then Some v else dict_get key d'
  end.

Definition is_str (key : string) (v : json) : bool :=
  match v with JStr t => String.eqb t key | _ => false end.

(** [key in s] for a [str] key. *)
Definition contains (key : string) (s : json) : result bool :=
  match s with
  | JObj d => Ok (match dict_get key d with Some _ => true | None => false end)
  | JArr l => Ok (existsb (is_str key) l)
  | JStr t => Ok (PyStr.contains key t)
  | JNull | JBool _ | JInt _ | JFloat _ => Raise TypeError
  end.

(** [s[key]] for a [str] key. *)
Definition getitem (s : json) (key : string) : result json :=
  match s with
  | JObj d =>
      match dict_get key d with
      | Some v => Ok v
      | None => Raise (KeyError key)
      end
  | _ => Raise TypeError
  end.

(** [opc.get(key)]; only a dict has the method. *)
Definition get (opc : json) (key : string) : result (option json) :=
  match opc with
  | JObj d => Ok (dict_get key d)
  | _ => Raise AttributeError
  end.

(** [x != v] for [x = opc.get(k)] and an [int] v that a binary64 holds
    exactly. *)
Definition ne_int (x : option json) (v : Z) : bool :=
  match x with
  | Some (JInt z) => negb (z =? v)
  | Some (JBool b) => negb ((if b then 1 else 0) =? v)
  | Some (JFloat f) =>
      negb (PyFloat.eqb f (binary_normalize PyFloat.prec PyFloat.emax v 0 false))
  | _ => true
  end.

(** [x != t] for a [str] t. *)
Definition ne_str (x : json) (t : string) : bool :=
  match x with
  | JStr u => negb (String.eqb u t)
  | _ => true
  end.

End PyVal.

(** ** The grader: [autograder/checks.py] and [autograder/run_grader.py] *)

Section Grader.

(** [sys.executable]. *)
Variable sys_executable : string.

(** The child-process oracle: for a command, a timeout and the working
    directory it starts in, how the process ends and the working directory
    it leaves. *)
Variable spawn : list string -> Z -> dir -> outcome * dir.

(** [json.loads] on a text: the value, or the message of the
    [JSONDecodeError]. *)
Variable json_loads : string -> string + json.

(** [float(s)] on a [str], [None] for the [ValueError]. *)
Variable float_of_str : string -> option spec_float.

(** [str(v)] on a loaded value, as an f-string prints it. *)
Variable py_format : json -> string.

Definition run_cmd (cmd : list string) (timeout : Z) : M (Z * string * string) :=
  fun w =>
    match spawn cmd timeout w with
    | (Exited returncode out err, w') => (Ok (returncode, out, err), w')
    | (TimedOut, w') =>
        (Raise (CheckError ("Timed out running: " ++ PyStr.join " " cmd)), w')
    end.

Definition load_json (path : string) : M json :=
  let* text := read_text path in
  match json_loads text with
  | inl msg => raise (JSONDecodeError msg)
  | inr v => ret v
  end.

(** [float(v)]. *)
Definition py_float (v : json) : result spec_float :=
  match v with
  | JInt n => PyFloat.of_int n
  | JFloat f => Ok f
  | JBool b => PyFloat.of_int (if b then 1 else 0)
  | JStr s =>
      match float_of_str s with
      | Some f => Ok f
      | None => Raise ValueError
      end
  | JNull | JArr _ | JObj _ => Raise TypeError
  end.

Definition approx (a b : json) (tol : spec_float) : result bool :=
  match py_float a with
  | Raise e => Raise e
  | Ok fa =>
      match py_float b with
      | Raise e => Raise e
      | Ok fb => Ok (PyFloat.leb (PyFloat.abs (PyFloat.sub fa fb)) tol)
      end
  end.

Definition detect_python_files : M bool :=
  fun w => (Ok (existsb (path_exists w) ["process_orders.py"; "models.py"]), w).

Definition detect_java_files : M bool :=
  fun w => (Ok (existsb (path_exists w) ["Order.java"; "OrderProcessor.java"]), w).

(** In both static checks the only statement of a [try] block that can
    raise [FileNotFoundError] is the [open], which comes before any
    assignment to [ok]; the handler therefore continues with [ok] as it was
    before the block. Any other exception leaves the function. *)
Definition static_checks_python : M (gmap string bool) :=
  let ok : gmap string bool :=
    <["functions" := false]> (<["control_flow" := false]> (<["oop" := false]> ∅)) in
  let* ok :=
    try_except
      (let* s := read_text "process_orders.py" in
       let* f := lift_re (Re.search "def\s+(aggregate|filter_high_value|parse_args)\(" s) in
       let ok := <["functions" := f]> ok in
       let* c := lift_re (Re.search "for\s|while\s|if\s" s) in
       ret (<["control_flow" := c]> ok))
      is_FileNotFoundError (fun _ => ret ok) in
  let* ok :=
    try_except
      (let* m := read_text "models.py" in
       ret (<["oop" := PyStr.contains "class Order" m && PyStr.contains "def total" m]> ok))
      is_FileNotFoundError (fun _ => ret ok) in
  ret ok.

Definition static_checks_java : M (gmap string bool) :=
  let ok : gmap string bool :=
    <["functions" := true]> (<["control_flow" := false]> (<["oop" := false]> ∅)) in
  let* ok :=
    try_except
      (let* s := read_text "OrderProcessor.java" in
       let* c := lift_re (Re.search "for\\s*\\(|while\\s*\\(|if\\s*\\(" s) in
       ret (<["control_flow" := c]> ok))
      is_FileNotFoundError (fun _ => ret ok) in
  let* ok :=
    try_except
      (let* s := read_text "Order.java" in
       ret (<["oop" := PyStr.contains "class Order" s && PyStr.contains "total(" s]> ok))
      is_FileNotFoundError (fun _ => ret ok) in
  ret ok.

(** [[n for n in os.listdir('.') if n.endswith('.java')]]. *)
Definition java_sources : M (list string) :=
  let* names := os_listdir in
  ret (filter (fun n => Is_true (PyStr.endswith n ".java")) names).

Definition junit_cp : string := ".:junit-4.13.2.jar:hamcrest-core-1.3.jar".

Definition run_unit_tests (lang : language) (timeout : Z) : M (bool * string) :=
  let* python_tests :=
    if language_eqb lang python then exists_ "tests" else ret false in
  if python_tests then
    let* (code, out, err) :=
      run_cmd [sys_executable; "-m"; "unittest"; "-q"] timeout in
    ret (code =? 0, out ++ err)
  else
    let not_required := ret (true, "") in
    if language_eqb lang java then
      let* names := os_listdir in
      if existsb (fun n => PyStr.endswith (PyStr.lower n) "test.java") names then
        try_except
          (let* srcs := java_sources in
           let* _ := run_cmd (["javac"; "-cp"; junit_cp] ++ srcs) timeout in
           let* (code, out, err) :=
             run_cmd ["java"; "-cp"; junit_cp; "org.junit.runner.JUnitCore"; "OrderTest"]
                     timeout in
           ret (code =? 0, out ++ err))
          (fun _ => true)
          (fun e => ret (false, "JUnit run failed: " ++ exn_str e))
      else not_required
    else not_required.

Definition fixture : string := "autograder/fixtures/orders.csv".

Definition run_program (lang : language) (timeout : Z) (threshold : string)
    : M (bool * string) :=
  let* _ :=
    for_each ["summary.json"; "high_value_orders.csv"]
      (fun p =>
         let* e := exists_ p in
         if e then try_except (os_remove p) (fun _ => true) (fun _ => ret tt)
         else ret tt) in
  match lang with
  | python =>
      let* e := exists_ "process_orders.py" in
      if negb e then raise (CheckError "process_orders.py not found")
      else
        let* (code, out, err) :=
          run_cmd [sys_executable; "process_orders.py"; "--input"; fixture;
                   "--threshold"; threshold] timeout in
        ret (code =? 0, out ++ err)
  | java =>
      let* e := exists_ "OrderProcessor.java" in
      if negb e then raise (CheckError "OrderProcessor.java not found")
      else
        let* srcs := java_sources in
        let* (code, out, err) := run_cmd ("javac" :: srcs) timeout in
        if negb (code =? 0) then ret (false, out ++ err)
        else
          let* (code, out, err) :=
            run_cmd ["java"; "OrderProcessor"; "--input"; fixture;
                     "--threshold"; threshold] timeout in
          ret (code =? 0, out ++ err)
  end.

Definition error_path_check (lang : language) (timeout : Z) : M bool :=
  let* (code, out, err) :=
    match lang with
    | python =>
        run_cmd [sys_executable; "process_orders.py"; "--input"; "nope.csv"] timeout
    | java =>
        let* srcs := java_sources in
        let* _ := run_cmd ("javac" :: srcs) timeout in
        run_cmd ["java"; "OrderProcessor"; "--input"; "nope.csv"] timeout
    end in
  ret (negb (code =? 0)).

(** [for key in keys: if key not in s: issues[f'summary.json:{key}'] = 'missing key']. *)
Fixpoint missing_keys (s : json) (keys : list string)
    (issues : gmap string string) : result (gmap string string) :=
  match keys with
  | [] => Ok issues
  | key :: keys' =>
      match PyVal.contains key s with
      | Raise e => Raise e
      | Ok true => missing_keys s keys' issues
      | Ok false =>
          missing_keys s keys' (<["summary.json:" ++ key := "missing key"]> issues)
      end
  end.

(** [if key in s and not approx(s[key], expected, tol): issues[key] = ...]. *)
Definition check_metric (s : json) (key : string) (expected : spec_float)
    (shown : string) (tol : spec_float) (issues : gmap string string)
    : result (gmap string string) :=
  match PyVal.contains key s with
  | Raise e => Raise e
  | Ok false => Ok issues
  | Ok true =>
      match PyVal.getitem s key with
      | Raise e => Raise e
      | Ok v =>
          match approx v (JFloat expected) tol with
          | Raise e => Raise e
          | Ok true => Ok issues
          | Ok false =>
              Ok (<[key := "expected ≈" ++ shown ++ ", got " ++ py_format v]> issues)
          end
      end
  end.

(** [any(opc.get(k) != v for k, v in expected.items())]. *)
Fixpoint any_differs (opc : json) (expected : list (string * Z)) : result bool :=
  match expected with
  | [] => Ok false
  | (k, v) :: expected' =>
      match PyVal.get opc k with
      | Raise e => Raise e
      | Ok x => if PyVal.ne_int x v then Ok true else any_differs opc expected'
      end
  end.

Definition expected_counts : list (string * Z) :=
  [("Books", 2); ("Electronics", 1); ("Toys", 1)].

Definition check_counts (s : json) (issues : gmap string string)
    : result (gmap string string) :=
  match PyVal.contains "orders_per_category" s with
  | Raise e => Raise e
  | Ok false => Ok issues
  | Ok true =>
      match PyVal.getitem s "orders_per_category" with
      | Raise e => Raise e
      | Ok opc =>
          match any_differs opc expected_counts with
          | Raise e => Raise e
          | Ok false => Ok issues
          | Ok true =>
              Ok (<["orders_per_category" :=
                      "expected {'Books': 2, 'Electronics': 1, 'Toys': 1}, got "
                      ++ py_format opc]> issues)
          end
      end
  end.

Definition check_top (s : json) (issues : gmap string string)
    : result (gmap string string) :=
  match PyVal.contains "top_category_by_revenue" s with
  | Raise e => Raise e
  | Ok false => Ok issues
  | Ok true =>
      match PyVal.getitem s "top_category_by_revenue" with
      | Raise e => Raise e
      | Ok v =>
          if PyVal.ne_str v "Electronics"
          then Ok (<["top_category_by_revenue" :=
                       "expected 'Electronics', got " ++ py_format v]> issues)
          else Ok issues
      end
  end.

Definition required_keys : list string :=
  ["total_revenue"; "average_order_value"; "orders_per_category";
   "top_category_by_revenue"].

Definition expected_header : string :=
  "order_id,customer_id,category,unit_price,quantity,timestamp".

Definition validate_outputs (tol : spec_float) : M (gmap string string) :=
  let issues : gmap string string := ∅ in
  let* e := exists_ "summary.json" in
  if negb e then ret (<["summary.json" := "missing"]> issues)
  else
    let* loaded :=
      try_except
        (let* s := load_json "summary.json" in ret (inr s))
        (fun _ => true)
        (fun e => ret (inl e)) in
    match loaded with
    | inl e => ret (<["summary.json" := "not valid JSON: " ++ exn_str e]> issues)
    | inr s =>
        let* issues := lift (missing_keys s required_keys issues) in
        let* issues :=
          lift (check_metric s "total_revenue" PyFloat.lit_303_47 "303.47" tol issues) in
        let* issues :=
          lift (check_metric s "average_order_value" PyFloat.lit_75_87 "75.87" tol issues) in
        let* issues := lift (check_counts s issues) in
        let* issues := lift (check_top s issues) in
        let* e := exists_ "high_value_orders.csv" in
        if negb e then ret (<["high_value_orders.csv" := "missing"]> issues)
        else
          let* text := read_text "high_value_orders.csv" in
          let header := PyStr.strip (PyStr.readline text) in
          if negb (String.eqb header expected_header)
          then ret (<["high_value_orders.csv:header" :=
                        "expected '" ++ expected_header ++ "', got '" ++ header ++ "'"]>
                      issues)
          else ret issues
    end.


(** *** [autograder/run_grader.py] *)

(** The rubric as [load_rubric] returns it: [weights] by check name,
    [tolerances.float] and the optional [timeout_seconds]. *)
Record rubric : Type := {
  weights : gmap string Z;
  tolerances_float : spec_float;
  timeout_seconds : option Z
}.

(** One entry of [details['checks']]. *)
Record check_record : Type := {
  pass : bool;
  points : Z;
  max_points : Z;                       (* 'max' *)
  issues : option (gmap string string);
  logs : option string
}.

Record details : Type := {
  lang : language;
  checks : gmap string check_record;
  run_logs : string;
  score : Z;
  max_score : Z;
  passed : bool
}.

(** What [main] prints. *)
Inductive printed : Type :=
| ErrorRecord (error : string)
| Report (d : details).

(** [weights[key]]. *)
Definition weight (ws : gmap string Z) (key : string) : M Z :=
  match ws !! key with
  | Some w => ret w
  | None => raise (KeyError key)
  end.

(** The grading state [main] updates: [score] and [details['checks']]. *)
Definition tally : Type := Z * gmap string check_record.

(** [gained = weights[key] if ok else 0; score += gained;
     details['checks'][key] = {'pass': ok, 'points': gained, 'max': weights[key], ...}]. *)
Definition record_check (ws : gmap string Z) (key : string) (ok : bool)
    (iss : option (gmap string string)) (lg : option string) (t : tally)
    : M tally :=
  let* gained := if ok then weight ws key else ret 0 in
  let* m := weight ws key in
  ret (fst t + gained,
       <[key := {| pass := ok; points := gained; max_points := m;
                   issues := iss; logs := lg |}]> (snd t)).

(** [bool(static.get(key))]. *)
Definition static_get (static : gmap string bool) (key : string) : bool :=
  match static !! key with
  | Some b => b
  | None => false
  end.

(** [for key in keys: ...] over the static checks. *)
Fixpoint record_static (ws : gmap string Z) (static : gmap string bool)
    (keys : list string) (t : tally) : M tally :=
  match keys with
  | [] => ret t
  | key :: keys' =>
      let* t := record_check ws key (static_get static key) None None t in
      record_static ws static keys' t
  end.

(** [sum(weights.values())]. *)
Definition sum_values (ws : gmap string Z) : Z :=
  map_fold (fun _ v acc => v + acc) 0 ws.

(** [int(0.7 * total)]. *)
Definition pass_mark (total : Z) : result Z :=
  match PyFloat.of_int total with
  | Raise e => Raise e
  | Ok t => PyFloat.to_int (PyFloat.mul PyFloat.lit_0_7 t)
  end.

(** The language [main] grades: [--lang] when given, else detection. *)
Definition detect (args_lang : option language) : M (option language) :=
  match args_lang with
  | Some l => ret (Some l)
  | None =>
      let* py := detect_python_files in
      if py then ret (Some python)
      else
        let* jv := detect_java_files in
        if jv then ret (Some java) else ret None
  end.

(** [main()] with the parsed [--lang] and the loaded rubric; it returns
    what it printed and the exit status. *)
Definition main (args_lang : option language) (r : rubric) : M (printed * Z) :=
  let ws := weights r in
  let tol := tolerances_float r in
  let timeout := match timeout_seconds r with Some t => t | None => 20 end in
  let* detected := detect args_lang in
  match detected with
  | None =>
      ret (ErrorRecord "Could not detect language; missing expected files.", 2)
  | Some lang =>
      let* static :=
        match lang with
        | python => static_checks_python
        | java => static_checks_java
        end in
      let t : tally := (0, ∅) in
      let* t := record_static ws static ["functions"; "control_flow"; "oop"] t in
      let* (ok, logs) :=
        try_except (run_program lang timeout "100") is_CheckError
          (fun e => ret (false, exn_str e)) in
      let run_logs := PyStr.tail 4000 logs in
      let* t := record_check ws "file_io" ok None None t in
      let* iss := validate_outputs tol in
      let analytics_pass := bool_decide (size iss = 0%nat) in
      let* t := record_check ws "analytics_correctness" analytics_pass (Some iss) None t in
      let* eh_pass := error_path_check lang timeout in
      let* t := record_check ws "error_handling" eh_pass None None t in
      let* (ut_pass, ut_logs) := run_unit_tests lang timeout in
      let* t := record_check ws "unit_tests" ut_pass None (Some (PyStr.tail 4000 ut_logs)) t in
      let total := sum_values ws in
      let* mark := lift (pass_mark total) in
      let d := {| lang := lang; checks := snd t; run_logs := run_logs;
                  score := fst t; max_score := total;
                  passed := mark <=? fst t |} in
      ret (Report d, if passed d then 0 else 1)
  end.

End Grader.
(** ** Vocabulary of the statements *)

(** The seven checks, in the order [main] records them. *)
Definition check_names : list string :=
  ["functions"; "control_flow"; "oop"; "file_io"; "analytics_correctness";
   "error_handling"; "unit_tests"].

(** [sum(f(k) for k in keys)]. *)
Definition sum_with (f : string -> Z) (keys : list string) : Z :=
  fold_right (fun k acc => f k + acc) 0 keys.

(** The weight of a check, 0 for a name the rubric lacks. *)
Definition weight_of (ws : gmap string Z) (k : string) : Z := default 0 (ws !! k).

(** The outcome the report records for the check [k]. *)
Definition recorded_pass (d : details) (k : string) : bool :=
  match checks d !! k with
  | Some c => pass c
  | None => false
  end.

(** The entry [main] stores for a check of weight [m] that ended [ok]. *)
Definition entry (ok : bool) (m : Z) (iss : option (gmap string string))
    (lg : option string) : check_record :=
  {| pass := ok; points := if ok then m else 0; max_points := m;
     issues := iss; logs := lg |}.

(** The outcomes of the stages of one run of [main]. *)
Record outcomes : Type := {
  o_static : gmap string bool;
  o_file_io : bool;
  o_issues : gmap string string;
  o_error_handling : bool;
  o_unit_tests : bool;
  o_unit_logs : string
}.

(** The outcome of the check [k] in the run [o]. *)
Definition outcome_of (o : outcomes) (k : string) : bool :=
  if String.eqb k "file_io" then o_file_io o
  else if String.eqb k "analytics_correctness"
       then bool_decide (size (o_issues o) = 0%nat)
  else if String.eqb k "error_handling" then o_error_handling o
  else if String.eqb k "unit_tests" then o_unit_tests o
  else static_get (o_static o) k.

(** The [issues] and [logs] fields [main] attaches to the check [k]. *)
Definition extras_of (o : outcomes) (k : string)
    : option (gmap string string) * option string :=
  if String.eqb k "analytics_correctness" then (Some (o_issues o), None)
  else if String.eqb k "unit_tests"
       then (None, Some (PyStr.tail 4000 (o_unit_logs o)))
  else (None, None).

(** The entry of the check [k] in [details['checks']]. *)
Definition entry_of (ws : gmap string Z) (o : outcomes) (k : string) : check_record :=
  entry (outcome_of o k) (weight_of ws k) (fst (extras_of o k)) (snd (extras_of o k)).

(** Score and checks after recording [keys] in turn. *)
Definition tally_from (ws : gmap string Z) (o : outcomes) (keys : list string)
    (t : tally) : tally :=
  fold_left
    (fun t k => (fst t + points (entry_of ws o k), <[k := entry_of ws o k]> (snd t)))
    keys t.

(** The stages behind a printed report. *)
Section Graded.

Variable sys_executable : string.
Variable spawn : list string -> Z -> dir -> outcome * dir.
Variable json_loads : string -> string + json.
Variable float_of_str : string -> option spec_float.
Variable py_format : json -> string.

(** [int(rubric.get('timeout_seconds', 20))]. *)
Definition timeout_of (r : rubric) : Z :=
  match timeout_seconds r with Some t => t | None => 20 end.

(** The static checks [main] runs for a language. *)
Definition static_checks (l : language) : M (gmap string bool) :=
  match l with
  | python => static_checks_python
  | java => static_checks_java
  end.

(** [main] started in [w] with a language, every stage returned, and the
    report [d] with exit status [status] is what they add up to. *)
Definition graded (args : option language) (r : rubric) (w w' : dir)
    (d : details) (status : Z) : Prop :=
  exists o run_out mark w1 w2 w3 w4,
    detect args w = (Ok (Some (lang d)), w) /\
    static_checks (lang d) w = (Ok (o_static o), w1) /\
    try_except (run_program sys_executable spawn (lang d) (timeout_of r) "100")
      is_CheckError (fun e => ret (false, exn_str e)) w1
      = (Ok (o_file_io o, run_out), w2) /\
    validate_outputs json_loads float_of_str py_format (tolerances_float r) w2
      = (Ok (o_issues o), w3) /\
    error_path_check sys_executable spawn (lang d) (timeout_of r) w3
      = (Ok (o_error_handling o), w4) /\
    run_unit_tests sys_executable spawn (lang d) (timeout_of r) w4
      = (Ok (o_unit_tests o, o_unit_logs o), w') /\
    (forall k, k ∈ check_names -> is_Some (weights r !! k)) /\
    (score d, checks d) = tally_from (weights r) o check_names (0, ∅) /\
    max_score d = sum_values (weights r) /\
    pass_mark (sum_values (weights r)) = Ok mark /\
    passed d = (mark <=? score d) /\
    status = (if passed d then 0 else 1).

End Graded.

(** ** Example submissions, rubrics and child-process oracles *)

Module Examples.

Definition interpreter : string := "python3".

Definition no_float : string -> option spec_float := fun _ => None.
Definition plain_format : json -> string := fun _ => "?".

(** Every child process hangs until the timeout. *)
Definition always_hang : list string -> Z -> dir -> outcome * dir :=
  fun _ _ w => (TimedOut, w).

(** Every child process exits with status 0 and writes nothing. *)
Definition always_exit0 : list string -> Z -> dir -> outcome * dir :=
  fun _ _ w => (Exited 0 "" "", w).

Definition has_arg (a : string) (cmd : list string) : bool :=
  existsb (String.eqb a) cmd.

Definition summary_text : string := "<summary>".

Definition csv_text : string :=
  "order_id,customer_id,category,unit_price,quantity,timestamp
1001,C001,Electronics,199.99,1,2024-01-05T10:00:00".

(** The summary of a correct run on the fixture. *)
Definition good_summary : json :=
  JObj [("total_revenue", JFloat PyFloat.lit_303_47);
        ("average_order_value", JFloat PyFloat.lit_75_87);
        ("orders_per_category",
           JObj [("Books", JInt 2); ("Electronics", JInt 1); ("Toys", JInt 1)]);
        ("top_category_by_revenue", JStr "Electronics")].

Definition load_summary : string -> string + json :=
  fun text => if String.eqb text summary_text then inr good_summary
              else inl "Expecting value".

(** A correct program: on the fixture it writes both artifacts and exits
    with 0, on the missing input it exits with 1; its unit tests pass. *)
Definition good_program : list string -> Z -> dir -> outcome * dir :=
  fun cmd _ w =>
    if has_arg "nope.csv" cmd then (Exited 1 "" "input not found", w)
    else if has_arg "--threshold" cmd then
      (Exited 0 "done" "",
       <["high_value_orders.csv" := csv_text]> (<["summary.json" := summary_text]> w))
    else (Exited 0 "" "", w).

(** A program that computes the right artifacts but exits with 0 on the
    missing input, and whose unit tests fail. *)
Definition sloppy_program : list string -> Z -> dir -> outcome * dir :=
  fun cmd _ w =>
    if has_arg "nope.csv" cmd then (Exited 0 "" "", w)
    else if has_arg "unittest" cmd then (Exited 1 "" "FAILED", w)
    else if has_arg "--threshold" cmd then
      (Exited 0 "done" "",
       <["high_value_orders.csv" := csv_text]> (<["summary.json" := summary_text]> w))
    else (Exited 0 "" "", w).

(** A program that works on the fixture and hangs on the missing input. *)
Definition hangs_on_missing_input : list string -> Z -> dir -> outcome * dir :=
  fun cmd t w =>
    if has_arg "nope.csv" cmd then (TimedOut, w) else good_program cmd t w.

Definition process_orders_py : string :=
  "def parse_args():
    pass
def aggregate(orders):
    for o in orders:
        if o: pass
".

Definition models_py : string :=
  "class Order:
    def total(self):
        return self.unit_price * self.quantity
".

(** A Python submission with both modules. *)
Definition python_submission : dir :=
  <["process_orders.py" := process_orders_py]> (<["models.py" := models_py]> ∅).

(** A Python submission without [models.py] but with a [tests] entry. *)
Definition python_no_models : dir :=
  <["process_orders.py" := process_orders_py]> (<["tests" := ""]> ∅).

(** A Java submission. *)
Definition java_submission : dir :=
  <["OrderProcessor.java" := "class OrderProcessor { void run() { for (;;) { } } }"]>
    (<["Order.java" := "class Order { double total() { return 0; } }"]> ∅).

(** Sources of both languages side by side. *)
Definition mixed_submission : dir :=
  <["models.py" := models_py]> java_submission.

Definition tol_0_01 : spec_float := PyFloat.decimal 1 100.

(** Weights that sum to 100. *)
Definition rubric_100 : rubric :=
  {| weights :=
       list_to_map [("functions", 15); ("control_flow", 10); ("oop", 15);
                    ("file_io", 20); ("analytics_correctness", 20);
                    ("error_handling", 10); ("unit_tests", 10)];
     tolerances_float := tol_0_01;
     timeout_seconds := Some 20 |}.

(** Weights that sum to 90. *)
Definition rubric_90 : rubric :=
  {| weights :=
       list_to_map [("functions", 12); ("control_flow", 10); ("oop", 10);
                    ("file_io", 20); ("analytics_correctness", 20);
                    ("error_handling", 10); ("unit_tests", 8)];
     tolerances_float := tol_0_01;
     timeout_seconds := None |}.

End Examples.

(** The working directory once [run_program] has removed the artifacts
    of an earlier run. *)
Definition clean (w : dir) : dir :=
  delete "high_value_orders.csv" (delete "summary.json" w).

(** The file [run_program] requires for a language. *)
Definition entry_point (l : language) : string :=
  match l with
  | python => "process_orders.py"
  | java => "OrderProcessor.java"
  end.

(** The Java sources of a directory, as [os.listdir] lists them. *)
Definition java_files (w : dir) : list string :=
  filter (fun n => Is_true (PyStr.endswith n ".java")) (map fst (map_to_list w)).

(** The first command [run_program] launches for a language. *)
Definition first_command (interpreter : string) (l : language)
    (threshold : string) (w : dir) : list string :=
  match l with
  | python =>
      [interpreter; "process_orders.py"; "--input"; fixture; "--threshold"; threshold]
  | java => "javac" :: java_files w
  end.

(** A step that changes [iss] at the key [K0] at most. *)
Definition touches_only (K0 : string) (iss iss' : gmap string string) : Prop :=
  forall K, K <> K0 -> iss' !! K = iss !! K.

(** The header check on the second artifact, after the summary checks
    left [iss]. *)
Definition with_csv_issue (w : dir) (iss : gmap string string) : gmap string string :=
  match w !! "high_value_orders.csv" with
  | None => <["high_value_orders.csv" := "missing"]> iss
  | Some text =>
      let header := PyStr.strip (PyStr.readline text) in
      if negb (String.eqb header expected_header)
      then <["high_value_orders.csv:header" :=
               "expected '" ++ expected_header ++ "', got '" ++ header ++ "'"]> iss
      else iss
  end.

(** What a run of [main] reports, in short: language, score, maximal
    score, [passed], exit status and the outcome of each check. *)
Definition report_summary (x : result (printed * Z) * dir)
    : option (language * Z * Z * bool * Z * list bool) :=
  match fst x with
  | Ok (Report d, status) =>
      Some (lang d, score d, max_score d, passed d, status,
            map (recorded_pass d) check_names)
  | _ => None
  end.

(** The value a static check returns for the predicate [k]. *)
Definition static_value (x : result (gmap string bool) * dir) (k : string)
    : option bool :=
  match fst x with
  | Ok ok => ok !! k
  | Raise _ => None
  end.


(** ** Exact binary64 values of integers *)





(** The command of the error-path probe for a Python submission. *)
Definition probe_command (interpreter : string) : list string :=
  [interpreter; "process_orders.py"; "--input"; "nope.csv"].

(** ** Words of a regular expression *)

Inductive re_matches : Re.regex -> list ascii -> Prop :=
| MEps : re_matches Re.Eps []
| MChr c : re_matches (Re.Chr c) [c]
| MSpace c : PyStr.isspace c = true -> re_matches Re.Space [c]
| MCat r1 r2 l1 l2 :
    re_matches r1 l1 -> re_matches r2 l2 -> re_matches (Re.Cat r1 r2) (l1 ++ l2)
| MAltL r1 r2 l : re_matches r1 l -> re_matches (Re.Alt r1 r2) l
| MAltR r1 r2 l : re_matches r2 l -> re_matches (Re.Alt r1 r2) l
| MStar0 r : re_matches (Re.Star r) []
| MStarS r l1 l2 :
    re_matches r l1 -> re_matches (Re.Star r) l2 -> re_matches (Re.Star r) (l1 ++ l2).

(** The pattern [kw\s] for a keyword. *)
Definition keyword_space (kw : string) : Re.regex :=
  fold_right (fun c r => Re.Cat (Re.Chr c) r) (Re.Cat Re.Space Re.Eps)
             (list_ascii_of_string kw).

(** The keywords of the Python control-flow pattern. *)
Definition python_keywords : list string := ["for"; "while"; "if"].

(** ** Vocabulary of the further properties *)

(** A computation that keeps a property of the working directory,
    whether it returns or raises. *)
Definition preserves {A} (P : dir -> Prop) (m : M A) : Prop :=
  forall w, P w -> P (snd (m w)).

(** The command of the Python unit-test run. *)
Definition unittest_command (interpreter : string) : list string :=
  [interpreter; "-m"; "unittest"; "-q"].

(** The two commands of the Java unit-test run. *)
Definition junit_compile_command (w : dir) : list string :=
  ["javac"; "-cp"; junit_cp] ++ java_files w.

Definition junit_run_command : list string :=
  ["java"; "-cp"; junit_cp; "org.junit.runner.JUnitCore"; "OrderTest"].

(** Some entry of the directory is named like a Java test, in any case. *)
Definition has_java_tests (w : dir) : bool :=
  existsb (fun n => PyStr.endswith (PyStr.lower n) "test.java")
          (map fst (map_to_list w)).


(** The message of the [CheckError] of a command that timed out. *)
Definition timed_out_message (cmd : list string) : string :=
  "Timed out running: " ++ PyStr.join " " cmd.

(** A program that works on the fixture and on the missing input, and
    whose unit tests hang. *)
Definition hangs_in_unit_tests : list string -> Z -> dir -> outcome * dir :=
  fun cmd t w =>
    if Examples.has_arg "unittest" cmd then (TimedOut, w)
    else Examples.good_program cmd t w.

(** Every key [validate_outputs] can put into the issues mapping. *)
Definition issue_keys : list string :=
  ["summary.json";
   "summary.json:total_revenue"; "summary.json:average_order_value";
   "summary.json:orders_per_category"; "summary.json:top_category_by_revenue";
   "total_revenue"; "average_order_value"; "orders_per_category";
   "top_category_by_revenue";
   "high_value_orders.csv"; "high_value_orders.csv:header"].

(** A loaded value that is neither a dict, a list nor a string. *)
Definition is_scalar (s : json) : bool :=
  match s with
  | JNull | JBool _ | JInt _ | JFloat _ => true
  | JStr _ | JArr _ | JObj _ => false
  end.

(** No character of the text ends a line. *)
Fixpoint one_line (s : string) : bool :=
  match s with
  | EmptyString => true
  | String c s' => negb (PyStr.is_newline c) && one_line s'
  end.

(** The pattern of a literal word followed by [k]. *)
Definition word_re (word : string) (k : Re.regex) : Re.regex :=
  fold_right (fun c r => Re.Cat (Re.Chr c) r) k (list_ascii_of_string word).

(** The function names of the Python [functions] pattern. *)
Definition python_function_names : list string :=
  ["aggregate"; "filter_high_value"; "parse_args"].

(** The pattern [def\s+(aggregate|filter_high_value|parse_args)\(] once
    compiled. *)
Definition functions_regex : Re.regex :=
  word_re "def"
    (Re.Cat (Re.Cat Re.Space (Re.Star Re.Space))
       (Re.Cat
          (Re.Alt (word_re "aggregate" Re.Eps)
             (Re.Alt (word_re "filter_high_value" Re.Eps)
                     (word_re "parse_args" Re.Eps)))
          (Re.Cat (Re.Chr "(") Re.Eps))).

(** The pattern [for\s|while\s|if\s] once compiled. *)
Definition control_flow_regex : Re.regex :=
  Re.Alt (keyword_space "for") (Re.Alt (keyword_space "while") (keyword_space "if")).

(** The names of the three static predicates. *)
Definition static_names : list string := ["functions"; "control_flow"; "oop"].

(** Every character is whitespace. *)
Definition all_space (l : list ascii) : Prop :=
  Forall (fun c => PyStr.isspace c = true) l.

(** The pass mark of a total is the floor of seven tenths of it or one
    less, and the floor itself when the total is not a multiple of 10. *)
Definition pass_mark_close (t : Z) : bool :=
  match pass_mark t with
  | Ok m => (7 * t / 10 - 1 <=? m) && (m <=? 7 * t / 10)
            && ((t mod 10 =? 0) || (m =? 7 * t / 10))
  | Raise _ => false
  end.

(** [f] holds at 0, 1, ..., [n]. *)
Fixpoint all_up_to (f : Z -> bool) (n : nat) : bool :=
  match n with
  | O => f 0
  | S n' => f (Z.of_nat n) && all_up_to f n'
  end.

(** A tolerance that is a number and is not negative. *)
Definition nonneg_tolerance (tol : spec_float) : bool :=
  match tol with
  | S754_zero _ | S754_finite false _ _ | S754_infinity false => true
  | S754_finite true _ _ | S754_infinity true | S754_nan => false
  end.

(** A float that is neither an infinity nor a NaN. *)
Definition finite_float (f : spec_float) : bool :=
  match f with
  | S754_zero _ | S754_finite _ _ _ => true
  | S754_infinity _ | S754_nan => false
  end.

(** A program that writes the number 5 as its summary. *)
Definition writes_scalar_summary : list string -> Z -> dir -> outcome * dir :=
  fun cmd _ w =>
    if Examples.has_arg "--threshold" cmd
    then (Exited 0 "" "", <["summary.json" := "5"]> w)
    else (Exited 0 "" "", w).

(** [json.loads] on the text [5]. *)
Definition loads_number : string -> string + json :=
  fun text => if String.eqb text "5" then inr (JInt 5) else inl "Expecting value".

(** A directory without sources that still holds the summary of an
    earlier run. *)
Definition stale_outputs : dir := <["summary.json" := Examples.summary_text]> ∅.

(** A directory that holds the two artifacts of a correct run. *)
Definition good_outputs : dir :=
  <["high_value_orders.csv" := Examples.csv_text]>
    (<["summary.json" := Examples.summary_text]> ∅).

(** A Java submission that has the model class only. *)
Definition java_only_model : dir :=
  <["Order.java" := "class Order { double total() { return 0; } }"]> ∅.

(** * Properties *)

(** ** The monad *)

Lemma bind_ok {A B} (m : M A) (k : A -> M B) w b w' :
  bind m k w = (Ok b, w') ->
  exists a w1, m w = (Ok a, w1) /\ k a w1 = (Ok b, w').
Proof.
  unfold bind. destruct (m w) as [[a|e] w1]; [eauto | discriminate].
Qed.

Lemma ret_ok {A} (a b : A) (w w' : dir) :
  ret a w = (Ok b, w') -> a = b /\ w = w'.
Proof. unfold ret. intros H. by inversion H. Qed.

Lemma lift_ok {A} (r : result A) (b : A) (w w' : dir) :
  lift r w = (Ok b, w') -> r = Ok b /\ w = w'.
Proof. unfold lift. intros H. by inversion H. Qed.

(** ** Sums over the check names *)

Lemma sum_with_ext f g keys :
  (forall k, k ∈ keys -> f k = g k) -> sum_with f keys = sum_with g keys.
Proof.
  induction keys as [|k keys IH]; intros H; simpl; [done|].
  rewrite (H k) by constructor. rewrite IH; [done|].
  intros k' Hk'. apply H. by constructor.
Qed.

Lemma sum_with_bounds f g keys :
  (forall k, k ∈ keys -> 0 <= f k <= g k) ->
  0 <= sum_with f keys <= sum_with g keys.
Proof.
  induction keys as [|k keys IH]; intros H; simpl; [lia|].
  pose proof (H k ltac:(constructor)).
  assert (0 <= sum_with f keys <= sum_with g keys); [|lia].
  apply IH. intros k' Hk'. apply H. by constructor.
Qed.

Lemma sum_values_keys keys : forall ws : gmap string Z,
  NoDup keys -> dom ws = list_to_set keys ->
  sum_values ws = sum_with (weight_of ws) keys.
Proof.
  induction keys as [|k keys IH]; intros ws Hnd Hdom.
  - simpl in Hdom. apply dom_empty_inv_L in Hdom as ->.
    unfold sum_values. by rewrite map_fold_empty.
  - apply NoDup_cons in Hnd as [Hk Hnd].
    assert (is_Some (ws !! k)) as [x Hx].
    { apply elem_of_dom. rewrite Hdom. simpl. apply elem_of_union_l.
      by apply elem_of_singleton. }
    unfold sum_values.
    rewrite (map_fold_delete_L _ _ k x ws); [|intros; lia|done].
    fold (sum_values (delete k ws)).
    rewrite (IH (delete k ws) Hnd).
    + simpl. unfold weight_of at 2. rewrite Hx. simpl. f_equal.
      apply sum_with_ext. intros k' Hk'. unfold weight_of.
      rewrite lookup_delete_ne; [done|]. intros ->. done.
    + rewrite dom_delete_L, Hdom. simpl.
      apply set_eq. intros j. rewrite elem_of_difference, elem_of_union,
        elem_of_singleton, elem_of_list_to_set.
      split; [intros [[->|?] ?]; done|].
      intros Hj. split; [by right|]. intros ->. done.
Qed.

Lemma check_names_NoDup : NoDup check_names.
Proof. apply (bool_decide_unpack _). by vm_compute. Qed.

Lemma tally_from_score ws o keys : forall t,
  fst (tally_from ws o keys t)
  = fst t + sum_with (fun k => points (entry_of ws o k)) keys.
Proof.
  induction keys as [|k keys IH]; intros t; simpl; [lia|].
  unfold tally_from in *. simpl. rewrite IH. simpl. lia.
Qed.

Lemma tally_from_lookup ws o keys : forall t k,
  snd (tally_from ws o keys t) !! k
  = if decide (k ∈ keys) then Some (entry_of ws o k) else snd t !! k.
Proof.
  induction keys as [|j keys IH]; intros t k.
  - destruct (decide (k ∈ [])) as [H|H]; [by apply elem_of_nil in H | done].
  - unfold tally_from in *. simpl. rewrite IH. simpl.
    destruct (decide (k ∈ keys)) as [Hk|Hk].
    + rewrite decide_True; [done | by constructor].
    + destruct (decide (j = k)) as [->|Hjk].
      * rewrite lookup_insert_eq. rewrite decide_True; [done | constructor].
      * rewrite lookup_insert_ne by done.
        rewrite decide_False; [done|].
        intros [->|?]%elem_of_cons; done.
Qed.

(** ** Static checks *)

Lemma functions_pattern_compiles :
  exists r, Re.compile "def\s+(aggregate|filter_high_value|parse_args)\(" = inr r.
Proof. eexists. vm_compute. reflexivity. Qed.

Lemma python_control_flow_pattern_compiles :
  exists r, Re.compile "for\s|while\s|if\s" = inr r.
Proof. eexists. vm_compute. reflexivity. Qed.

Lemma java_control_flow_pattern_error :
  Re.compile "for\\s*\\(|while\\s*\\(|if\\s*\\(" = inl Re.unterminated_subpattern.
Proof. vm_compute. reflexivity. Qed.

(** C6. Evaluation at a Java submission: whenever [OrderProcessor.java]
    is present the pattern of the Java control-flow check fails to compile
    and [static_checks_java] raises [re.error] instead of returning a
    value for [control_flow]. *)
Theorem C6_java_control_flow_raises w s :
  w !! "OrderProcessor.java" = Some s ->
  static_checks_java w = (Raise (ReError Re.unterminated_subpattern), w).
Proof.
  intros Hs. unfold static_checks_java, bind at 1, try_except at 1.
  unfold bind at 1, read_text. rewrite Hs.
  unfold Re.search. rewrite java_control_flow_pattern_error. reflexivity.
Qed.

Lemma static_python_lookup (f c o : bool) :
  let ok : gmap string bool :=
    <["oop" := o]> (<["control_flow" := c]> (<["functions" := f]>
      (<["functions" := false]> (<["control_flow" := false]> (<["oop" := false]> ∅))))) in
  ok !! "functions" = Some f /\ ok !! "control_flow" = Some c /\ ok !! "oop" = Some o.
Proof.
  simpl. split_and!.
  - rewrite lookup_insert_ne by done. rewrite lookup_insert_ne by done.
    by rewrite lookup_insert_eq.
  - rewrite lookup_insert_ne by done. by rewrite lookup_insert_eq.
  - by rewrite lookup_insert_eq.
Qed.

Lemma search_compiled pat r s :
  Re.compile pat = inr r ->
  Re.search pat s = inr (Re.search_from r (list_ascii_of_string s)).
Proof. unfold Re.search. by intros ->. Qed.

Ltac lookup_static :=
  repeat (rewrite lookup_insert_ne by done); rewrite ?lookup_insert_eq; try done.

(** C5, as amended. For Python each of the three predicates is false when
    the file it inspects is absent: [functions] and [control_flow] inspect
    [process_orders.py], [oop] inspects [models.py]. For Java
    [control_flow] is false when [OrderProcessor.java] is absent and [oop]
    is false when [Order.java] is absent, while [functions] inspects no
    file and is true. *)
Theorem C5_predicates_of_absent_files w :
  (exists ok, static_checks_python w = (Ok ok, w) /\
     (w !! "process_orders.py" = None ->
        ok !! "functions" = Some false /\ ok !! "control_flow" = Some false) /\
     (w !! "models.py" = None -> ok !! "oop" = Some false)) /\
  (w !! "OrderProcessor.java" = None ->
     exists ok, static_checks_java w = (Ok ok, w) /\
       ok !! "functions" = Some true /\ ok !! "control_flow" = Some false /\
       (w !! "Order.java" = None -> ok !! "oop" = Some false)).
Proof.
  destruct functions_pattern_compiles as [rf Hrf].
  destruct python_control_flow_pattern_compiles as [rc Hrc].
  split.
  - unfold static_checks_python, bind at 1, try_except at 1.
    unfold bind at 1, read_text at 1.
    destruct (w !! "process_orders.py") as [s|] eqn:E1.
    + rewrite (search_compiled _ _ _ Hrf), (search_compiled _ _ _ Hrc).
      cbn [lift_re bind ret is_FileNotFoundError].
      unfold bind at 1, try_except at 1. unfold bind at 1, read_text.
      destruct (w !! "models.py") as [m|] eqn:E2;
        cbn [ret bind is_FileNotFoundError]; eexists; (split; [reflexivity|]);
        (split; [done|]); intros Hn; try congruence; lookup_static.
    + cbn [is_FileNotFoundError ret].
      unfold bind at 1, try_except at 1. unfold bind at 1, read_text.
      destruct (w !! "models.py") as [m|] eqn:E2;
        cbn [ret bind is_FileNotFoundError]; eexists; (split; [reflexivity|]);
        (split; [intros _; split; lookup_static
                | intros Hn; try congruence; lookup_static]).
  - intros E1. unfold static_checks_java, bind at 1, try_except at 1.
    unfold bind at 1, read_text at 1. rewrite E1.
    cbn [is_FileNotFoundError ret].
    unfold bind at 1, try_except at 1. unfold bind at 1, read_text.
    destruct (w !! "Order.java") as [m|] eqn:E2;
      cbn [ret bind is_FileNotFoundError]; eexists; (split; [reflexivity|]);
      split_and!; try (intros Hn; try congruence); lookup_static.
Qed.

(** ** The matcher finds the words of the pattern *)

Local Open Scope list_scope.

Lemma nullable_matches r : Re.nullable r = true <-> re_matches r [].
Proof.
  split.
  - induction r; simpl; intros H; try discriminate.
    + constructor.
    + apply andb_true_iff in H as [H1 H2].
      change (@nil ascii) with (@nil ascii ++ []). constructor; auto.
    + apply orb_true_iff in H as [H|H]; [apply MAltL | apply MAltR]; auto.
    + constructor.
  - intros H. remember [] as l eqn:El.
    induction H; simpl; try discriminate; try reflexivity.
    + apply app_eq_nil in El as [-> ->]. rewrite IHre_matches1, IHre_matches2; auto.
    + rewrite IHre_matches; auto.
    + rewrite IHre_matches; auto. apply orb_true_r.
Qed.

Lemma deriv_sound c r : forall l,
  re_matches (Re.deriv c r) l -> re_matches r (c :: l).
Proof.
  induction r; simpl; intros l H.
  - inversion H.
  - inversion H.
  - destruct (Ascii.eqb_spec c a) as [->|Hne]; inversion H; subst. constructor.
  - destruct (PyStr.isspace c) eqn:Hs; inversion H; subst. by constructor.
  - destruct (Re.nullable r1) eqn:Hn.
    + inversion H as [| | | | ? ? ? H1 | ? ? ? H2 | |]; subst.
      * inversion H1; subst. change (c :: l1 ++ l2) with ((c :: l1) ++ l2).
        constructor; auto.
      * change (c :: l) with ([] ++ c :: l). constructor; auto.
        by apply nullable_matches.
    + inversion H; subst. change (c :: l1 ++ l2) with ((c :: l1) ++ l2).
      constructor; auto.
  - inversion H; subst; [apply MAltL | apply MAltR]; auto.
  - inversion H; subst. change (c :: l1 ++ l2) with ((c :: l1) ++ l2).
    constructor; auto.
Qed.

Lemma deriv_complete c r l :
  re_matches r (c :: l) -> re_matches (Re.deriv c r) l.
Proof.
  intros H. remember (c :: l) as cl eqn:E. revert c l E.
  induction H; intros c0 l0 E; simpl; try discriminate.
  - inversion E; subst. rewrite Ascii.eqb_refl. constructor.
  - inversion E; subst. rewrite H. constructor.
  - destruct l1 as [|a l1'].
    + simpl in E. subst l2.
      replace (Re.nullable r1) with true by (symmetry; by apply nullable_matches).
      apply MAltR. by apply IHre_matches2.
    + simpl in E. inversion E; subst.
      destruct (Re.nullable r1); [apply MAltL|]; constructor; auto.
  - apply MAltL. auto.
  - apply MAltR. auto.
  - destruct l1 as [|a l1'].
    + simpl in E. by apply IHre_matches2.
    + simpl in E. inversion E; subst. constructor; auto.
Qed.

Lemma match_prefix_spec l : forall r,
  Re.match_prefix r l = true <->
  exists m post, l = m ++ post /\ re_matches r m.
Proof.
  induction l as [|c l IH]; intros r; simpl.
  - rewrite orb_false_r, nullable_matches. split.
    + intros H. by exists [], [].
    + intros (m & post & E & H). symmetry in E.
      by apply app_eq_nil in E as [-> ->].
  - rewrite orb_true_iff, nullable_matches, IH. split.
    + intros [H|(m & post & -> & H)].
      * by exists [], (c :: l).
      * exists (c :: m), post. split; [done|]. by apply deriv_sound.
    + intros (m & post & E & H). destruct m as [|a m]; [by left|].
      right. simpl in E. inversion E; subst. exists m, post.
      split; [done|]. by apply deriv_complete.
Qed.

Lemma search_from_spec r l :
  Re.search_from r l = true <->
  exists pre m post, l = pre ++ m ++ post /\ re_matches r m.
Proof.
  induction l as [|c l IH]; cbn [Re.search_from].
  - rewrite orb_false_r, match_prefix_spec. split.
    + intros (m & post & E & H). by exists [], m, post.
    + intros (pre & m & post & E & H). symmetry in E.
      apply app_eq_nil in E as [-> E]. eauto.
  - rewrite orb_true_iff, match_prefix_spec, IH. split.
    + intros [(m & post & E & H)|(pre & m & post & -> & H)].
      * by exists [], m, post.
      * by exists (c :: pre), m, post.
    + intros (pre & m & post & E & H). destruct pre as [|a pre].
      * left. simpl in E. eauto.
      * right. simpl in E. inversion E; subst. eauto.
Qed.

Lemma keyword_space_matches kw m :
  re_matches (keyword_space kw) m <->
  exists c, PyStr.isspace c = true /\ m = list_ascii_of_string kw ++ [c].
Proof.
  unfold keyword_space. revert m.
  induction (list_ascii_of_string kw) as [|a k IH]; intros m; simpl.
  - split.
    + intros H. inversion H as [| | |? ? ? ? H1 H2| | | |]; subst.
      inversion H1; subst. inversion H2; subst. eauto.
    + intros (c & Hc & ->). change [c] with ([c] ++ []).
      constructor; [by constructor | constructor].
  - split.
    + intros H. inversion H as [| | |? ? ? ? H1 H2| | | |]; subst.
      inversion H1; subst. apply IH in H2 as (c & Hc & ->). eauto.
    + intros (c & Hc & ->). change (a :: k ++ [c]) with ([a] ++ (k ++ [c])).
      constructor; [constructor|]. apply IH. eauto.
Qed.

Lemma python_control_flow_compiled :
  Re.compile "for\s|while\s|if\s"
  = inr (Re.Alt (keyword_space "for")
           (Re.Alt (keyword_space "while") (keyword_space "if"))).
Proof. reflexivity. Qed.

Lemma prefix_spec a : forall b,
  String.prefix a b = true <->
  exists post, list_ascii_of_string b = list_ascii_of_string a ++ post.
Proof.
  induction a as [|x a IH]; intros b.
  - destruct b; simpl; split; eauto.
  - destruct b as [|y b]; simpl.
    + split; [discriminate | intros (post & E); discriminate].
    + destruct (ascii_dec x y) as [->|Hne].
      * rewrite IH. split; intros (post & E); exists post; congruence.
      * split; [discriminate|]. intros (post & E). congruence.
Qed.

Lemma contains_spec sub s :
  PyStr.contains sub s = true <->
  exists pre post,
    list_ascii_of_string s = pre ++ list_ascii_of_string sub ++ post.
Proof.
  induction s as [|c s IH]; cbn [PyStr.contains].
  - rewrite orb_false_r, prefix_spec. split.
    + intros (post & E). by exists [], post.
    + intros (pre & post & E). simpl in E. symmetry in E.
      apply app_eq_nil in E as [-> E]. simpl. eauto.
  - rewrite orb_true_iff, prefix_spec, IH. cbn [list_ascii_of_string]. split.
    + intros [(post & E)|(pre & post & E)].
      * by exists [], post.
      * exists (c :: pre), post. by rewrite E.
    + intros (pre & post & E). destruct pre as [|a pre].
      * left. simpl in E. eauto.
      * right. simpl in E. inversion E; subst. eauto.
Qed.

(** What the Python control-flow check decides: the keyword [for],
    [while] or [if] followed by a whitespace character occurs in the
    text. *)
Lemma python_control_flow_spec s :
  Re.search "for\s|while\s|if\s" s = inr true <->
  exists kw c,
    kw ∈ python_keywords /\ PyStr.isspace c = true /\
    PyStr.contains (kw ++ String c EmptyString)%string s = true.
Proof.
  unfold Re.search. rewrite python_control_flow_compiled.
  assert (forall b, (inr b : Re.error + bool) = inr true <-> b = true) as Hinr
    by (intros b; split; [by inversion 1 | by intros ->]).
  rewrite Hinr, search_from_spec. split.
  - intros (pre & m & post & E & H).
    assert (exists kw c, kw ∈ python_keywords /\ PyStr.isspace c = true /\
              m = list_ascii_of_string (kw ++ String c EmptyString)%string)
      as (kw & c & Hk & Hc & ->).
    { inversion H as [| | | | ? ? ? H1 | ? ? ? H2 | |]; subst.
      - apply keyword_space_matches in H1 as (c & Hc & ->).
        exists "for", c. split_and!; [|done|done]. repeat constructor.
      - inversion H2 as [| | | | ? ? ? H3 | ? ? ? H3 | |]; subst;
          apply keyword_space_matches in H3 as (c & Hc & ->).
        + exists "while", c. split_and!; [|done|done]. repeat constructor.
        + exists "if", c. split_and!; [|done|done]. repeat constructor. }
    exists kw, c. split_and!; [done|done|]. apply contains_spec. eauto.
  - intros (kw & c & Hk & Hc & H). apply contains_spec in H as (pre & post & E).
    exists pre, (list_ascii_of_string (kw ++ String c EmptyString)%string), post.
    split; [done|]. unfold python_keywords in Hk.
    apply elem_of_cons in Hk as [->|Hk]; [|apply elem_of_cons in Hk as [->|Hk];
      [|apply elem_of_cons in Hk as [->|Hk]; [|by apply elem_of_nil in Hk]]].
    + apply MAltL. apply keyword_space_matches. eauto.
    + apply MAltR, MAltL. apply keyword_space_matches. eauto.
    + apply MAltR, MAltR. apply keyword_space_matches. eauto.
Qed.

(** X21. With [process_orders.py] present, [control_flow] is true exactly
    when one of the keywords [for], [while] and [if], followed at once by
    a whitespace character, occurs in its text. *)
Lemma python_control_flow_check w s :
  w !! "process_orders.py" = Some s ->
  static_value (static_checks_python w) "control_flow" = Some true <->
  exists kw c,
    kw ∈ python_keywords /\ PyStr.isspace c = true /\
    PyStr.contains (kw ++ String c EmptyString)%string s = true.
Proof.
  intros Hs. rewrite <- python_control_flow_spec.
  destruct functions_pattern_compiles as [rf Hrf].
  unfold Re.search at 1. rewrite python_control_flow_compiled.
  unfold static_value, static_checks_python, bind at 1, try_except at 1.
  unfold bind at 1, read_text at 1. rewrite Hs.
  rewrite (search_compiled _ _ _ Hrf).
  unfold Re.search. rewrite python_control_flow_compiled.
  cbn [lift_re bind ret is_FileNotFoundError].
  unfold bind at 1, try_except at 1. unfold bind at 1, read_text.
  destruct (w !! "models.py") as [m|]; cbn [ret bind is_FileNotFoundError fst];
    lookup_static; split; congruence.
Qed.


Local Open Scope string_scope.
Local Open Scope Z_scope.

(** ** Running the program *)

Lemma remove_if_exists p w :
  (let* e := exists_ p in
   if e then try_except (os_remove p) (fun _ => true) (fun _ => ret tt)
   else ret tt) w = (Ok tt, delete p w).
Proof.
  unfold bind, exists_, path_exists, try_except, os_remove, ret.
  destruct (w !! p) as [s|] eqn:E.
  - rewrite bool_decide_eq_true_2 by eauto. by rewrite E.
  - rewrite bool_decide_eq_false_2 by (by intros [? ?]).
    by rewrite delete_id.
Qed.

Lemma run_program_cleans w :
  for_each ["summary.json"; "high_value_orders.csv"]
    (fun p =>
       let* e := exists_ p in
       if e then try_except (os_remove p) (fun _ => true) (fun _ => ret tt)
       else ret tt) w
  = (Ok tt, clean w).
Proof.
  cbn [for_each]. unfold bind at 1. rewrite remove_if_exists.
  unfold bind at 1. rewrite remove_if_exists. reflexivity.
Qed.

Lemma clean_lookup w p :
  clean w !! p =
  if decide (p = "summary.json" \/ p = "high_value_orders.csv") then None else w !! p.
Proof.
  unfold clean. rewrite !lookup_delete.
  repeat case_decide; naive_solver.
Qed.

Lemma clean_entry_point l w : clean w !! entry_point l = w !! entry_point l.
Proof.
  rewrite clean_lookup. rewrite decide_False; [done|].
  destruct l; simpl; intros [?|?]; discriminate.
Qed.

Lemma path_exists_true w p : path_exists w p = true <-> is_Some (w !! p).
Proof. unfold path_exists. apply bool_decide_eq_true. Qed.

Lemma path_exists_false w p : path_exists w p = false <-> w !! p = None.
Proof.
  unfold path_exists. rewrite bool_decide_eq_false.
  rewrite <- eq_None_not_Some. done.
Qed.

Section RunProgram.

Variable sys_executable : string.
Variable spawn : list string -> Z -> dir -> outcome * dir.


Lemma run_cmd_timeout cmd timeout w :
  fst (spawn cmd timeout w) = TimedOut ->
  run_cmd spawn cmd timeout w
  = (Raise (CheckError ("Timed out running: " ++ PyStr.join " " cmd)),
     snd (spawn cmd timeout w)).
Proof.
  unfold run_cmd. destruct (spawn cmd timeout w) as [[c o er|] w1]; [done|].
  done.
Qed.

Lemma run_cmd_exited cmd timeout w code out err w1 :
  spawn cmd timeout w = (Exited code out err, w1) ->
  run_cmd spawn cmd timeout w = (Ok (code, out, err), w1).
Proof. unfold run_cmd. by intros ->. Qed.

Lemma run_program_unfold lang timeout threshold w :
  run_program sys_executable spawn lang timeout threshold w =
  match w !! entry_point lang with
  | None => (Raise (CheckError (entry_point lang ++ " not found")), clean w)
  | Some _ =>
      match lang with
      | python =>
          (let* (code, out, err) :=
             run_cmd spawn (first_command sys_executable python threshold (clean w))
                     timeout in
           ret (code =? 0, out ++ err)) (clean w)
      | java =>
          (let* (code, out, err) :=
             run_cmd spawn (first_command sys_executable java threshold (clean w))
                     timeout in
           if negb (code =? 0) then ret (false, out ++ err)
           else
             let* (code, out, err) :=
               run_cmd spawn ["java"; "OrderProcessor"; "--input"; fixture;
                              "--threshold"; threshold] timeout in
             ret (code =? 0, out ++ err)) (clean w)
      end
  end.
Proof.
  unfold run_program. unfold bind at 1. rewrite run_program_cleans.
  rewrite <- (clean_entry_point lang w).
  destruct lang; cbn [entry_point first_command].
  - unfold bind at 1, exists_, path_exists.
    destruct (clean w !! "process_orders.py") eqn:E.
    + by rewrite bool_decide_eq_true_2 by eauto.
    + by rewrite bool_decide_eq_false_2 by (by intros [? ?]).
  - unfold bind at 1, exists_, path_exists.
    destruct (clean w !! "OrderProcessor.java") eqn:E.
    + by rewrite bool_decide_eq_true_2 by eauto.
    + by rewrite bool_decide_eq_false_2 by (by intros [? ?]).
Qed.


End RunProgram.

(** ** Inversion of a run of [main] *)

Section GraderFacts.

Variable sys_executable : string.
Variable spawn : list string -> Z -> dir -> outcome * dir.
Variable json_loads : string -> string + json.
Variable float_of_str : string -> option spec_float.
Variable py_format : json -> string.

Lemma weight_ok ws key m w w' :
  weight ws key w = (Ok m, w') -> ws !! key = Some m /\ w = w'.
Proof.
  unfold weight. destruct (ws !! key); intros H.
  - by apply ret_ok in H as [-> ->].
  - discriminate.
Qed.

Lemma record_check_ok ws key ok iss lg t t' w w' :
  record_check ws key ok iss lg t w = (Ok t', w') ->
  is_Some (ws !! key) /\ w = w' /\
  t' = (fst t + points (entry ok (weight_of ws key) iss lg),
        <[key := entry ok (weight_of ws key) iss lg]> (snd t)).
Proof.
  unfold record_check. intros H.
  apply bind_ok in H as (g & w1 & Hg & H).
  apply bind_ok in H as (m & w2 & Hm & H).
  apply weight_ok in Hm as [Hm ->]. apply ret_ok in H as [<- <-].
  unfold weight_of. rewrite Hm. simpl. split; [eauto|]. destruct ok.
  - apply weight_ok in Hg as [Hg ->]. by simplify_eq.
  - by apply ret_ok in Hg as [<- ->].
Qed.

Lemma detect_dir args l w w' :
  detect args w = (Ok l, w') -> w = w'.
Proof.
  unfold detect, detect_python_files, detect_java_files, bind, ret.
  destruct args; [by inversion 1|].
  repeat case_match; by inversion 1.
Qed.

Lemma main_inv args r w p status w' :
  main sys_executable spawn json_loads float_of_str py_format args r w
    = (Ok (p, status), w') ->
  match p with
  | ErrorRecord e =>
      detect args w = (Ok None, w) /\ status = 2 /\ w' = w /\
      e = "Could not detect language; missing expected files."
  | Report d =>
      graded sys_executable spawn json_loads float_of_str py_format args r w w' d status
  end.
Proof.
  unfold main. fold (timeout_of r). intros H.
  apply bind_ok in H as (dl & w0 & Hd & H).
  pose proof (detect_dir _ _ _ _ Hd) as <-.
  destruct dl as [l|]; [|by apply ret_ok in H as [H <-]; inversion H].
  fold (static_checks l) in H.
  apply bind_ok in H as (static & w1 & Hs & H).
  apply bind_ok in H as (t3 & w2 & H3 & H).
  simpl in H3.
  apply bind_ok in H3 as (t1 & ? & H1 & H3).
  apply bind_ok in H3 as (t2 & ? & H2 & H3).
  apply bind_ok in H3 as (t3' & ? & H3' & H3).
  apply ret_ok in H3 as [<- <-].
  apply record_check_ok in H1 as (Hm1 & -> & ->).
  apply record_check_ok in H2 as (Hm2 & -> & ->).
  apply record_check_ok in H3' as (Hm3 & -> & ->).
  apply bind_ok in H as ([ok lg] & w3 & Hrun & H).
  apply bind_ok in H as (t4 & w4 & H4 & H).
  apply record_check_ok in H4 as (Hm4 & -> & ->).
  apply bind_ok in H as (iss & w5 & Hv & H).
  apply bind_ok in H as (t5 & w6 & H5 & H).
  apply record_check_ok in H5 as (Hm5 & -> & ->).
  apply bind_ok in H as (eh & w7 & Heh & H).
  apply bind_ok in H as (t6 & w8 & H6 & H).
  apply record_check_ok in H6 as (Hm6 & -> & ->).
  apply bind_ok in H as ([ut utl] & w9 & Hut & H).
  apply bind_ok in H as (t7 & w10 & H7 & H).
  apply record_check_ok in H7 as (Hm7 & -> & ->).
  apply bind_ok in H as (mark & w11 & Hmark & H).
  apply lift_ok in Hmark as [Hmark ->].
  apply ret_ok in H as [H ->].
  injection H as <- <-.
  eexists {| o_static := static; o_file_io := ok; o_issues := iss;
             o_error_handling := eh; o_unit_tests := ut; o_unit_logs := utl |},
          lg, mark, _, _, _, _.
  cbn [lang score checks max_score passed o_static o_file_io o_issues
       o_error_handling o_unit_tests o_unit_logs fst snd].
  split_and!; try eassumption; try reflexivity.
  intros k Hk. unfold check_names in Hk.
  repeat (apply elem_of_cons in Hk as [->|Hk]; [assumption|]).
  by apply elem_of_nil in Hk.
Qed.

Lemma main_report args r w d status w' :
  main sys_executable spawn json_loads float_of_str py_format args r w
    = (Ok (Report d, status), w') ->
  graded sys_executable spawn json_loads float_of_str py_format args r w w' d status.
Proof. apply main_inv. Qed.

Lemma main_error args r w e status w' :
  main sys_executable spawn json_loads float_of_str py_format args r w
    = (Ok (ErrorRecord e, status), w') ->
  detect args w = (Ok None, w) /\ status = 2 /\ w' = w /\
  e = "Could not detect language; missing expected files.".
Proof. apply main_inv. Qed.

(** C1. For every rubric whose weights are exactly the seven named,
    non-negative integers, the score of a report is the sum of the weights
    of the checks recorded as passed, the maximal score is the sum of the
    seven weights, and the score lies between 0 and the maximal score. *)
Theorem C1_score_sums_passing_weights args r w d status w' :
  dom (weights r) = list_to_set check_names ->
  (forall k v, weights r !! k = Some v -> 0 <= v) ->
  main sys_executable spawn json_loads float_of_str py_format args r w
    = (Ok (Report d, status), w') ->
  (forall k, k ∈ check_names -> is_Some (checks d !! k)) /\
  score d =
    sum_with (fun k => if recorded_pass d k then weight_of (weights r) k else 0)
             check_names /\
  max_score d = sum_with (weight_of (weights r)) check_names /\
  0 <= score d <= max_score d.
Proof.
  intros Hdom Hnn Hmain.
  apply main_report in Hmain
    as (o & lg & mark & w1 & w2 & w3 & w4 & _ & _ & _ & _ & _ & _ & Hw & Ht & Hmax & _).
  rewrite (sum_values_keys _ _ check_names_NoDup Hdom) in Hmax.
  pose proof (f_equal fst Ht) as Hs. pose proof (f_equal snd Ht) as Hc.
  cbn [fst snd] in Hs, Hc. clear Ht.
  rewrite tally_from_score in Hs. cbn [fst] in Hs. rewrite Z.add_0_l in Hs.
  assert (forall k, k ∈ check_names -> checks d !! k = Some (entry_of (weights r) o k)) as Hl.
  { intros k Hk. rewrite Hc, tally_from_lookup. by rewrite decide_True. }
  assert (forall k, k ∈ check_names ->
            points (entry_of (weights r) o k)
            = if recorded_pass d k then weight_of (weights r) k else 0) as Hp.
  { intros k Hk. unfold recorded_pass. rewrite (Hl k Hk). reflexivity. }
  assert (forall k, k ∈ check_names -> 0 <= weight_of (weights r) k) as Hk0.
  { intros k Hk. destruct (Hw k Hk) as [v Hv]. unfold weight_of. rewrite Hv.
    simpl. by eapply Hnn. }
  assert (score d =
    sum_with (fun k => if recorded_pass d k then weight_of (weights r) k else 0)
             check_names) as Hscore.
  { rewrite Hs. apply sum_with_ext. exact Hp. }
  split; [intros k Hk; rewrite (Hl k Hk); eauto|].
  split; [exact Hscore|]. split; [exact Hmax|].
  rewrite Hscore, Hmax. apply sum_with_bounds.
  intros k Hk. pose proof (Hk0 k Hk). destruct (recorded_pass d k); lia.
Qed.

(** ** Language detection and exit status *)


Lemma detect_python_first w :
  path_exists w "process_orders.py" = true \/ path_exists w "models.py" = true ->
  detect None w = (Ok (Some python), w).
Proof.
  unfold detect, detect_python_files, bind, ret. simpl.
  intros [-> | ->]; [done|]. by rewrite orb_true_r.
Qed.

(** C10. Without [--lang], when marker files of both languages are in the
    working directory, detection answers python, and a run of [main] that
    returns has printed a report for python. *)
Theorem C10_python_takes_precedence r w :
  path_exists w "process_orders.py" = true \/ path_exists w "models.py" = true ->
  path_exists w "Order.java" = true \/ path_exists w "OrderProcessor.java" = true ->
  detect None w = (Ok (Some python), w) /\
  forall p status w',
    main sys_executable spawn json_loads float_of_str py_format None r w
      = (Ok (p, status), w') ->
    exists d, p = Report d /\ lang d = python.
Proof.
  intros Hpy _. pose proof (detect_python_first w Hpy) as Hd.
  split; [exact Hd|]. intros p status w' Hmain.
  apply main_inv in Hmain. destruct p as [e|d].
  - destruct Hmain as [Hn _]. rewrite Hd in Hn. discriminate.
  - destruct Hmain as (o & lg & mark & w1 & w2 & w3 & w4 & Hl & _).
    rewrite Hd in Hl. exists d. split; [done|]. by inversion Hl.
Qed.


(** ** Timeouts *)

Lemma python_probe_hangs timeout w :
  fst (spawn (probe_command sys_executable) timeout w) = TimedOut ->
  exists msg w',
    error_path_check sys_executable spawn python timeout w
    = (Raise (CheckError msg), w').
Proof.
  intros Hhang. unfold error_path_check, bind at 1.
  fold (probe_command sys_executable).
  rewrite (run_cmd_timeout spawn _ _ _ Hhang). eauto.
Qed.

Lemma run_program_timeout_is_caught l timeout threshold w :
  is_Some (w !! entry_point l) ->
  fst (spawn (first_command sys_executable l threshold (clean w)) timeout (clean w))
    = TimedOut ->
  exists w',
    try_except (run_program sys_executable spawn l timeout threshold)
      is_CheckError (fun e => ret (false, exn_str e)) w
    = (Ok (false, "Timed out running: " ++
             PyStr.join " " (first_command sys_executable l threshold (clean w))), w').
Proof.
  intros [s Hs] Hhang. unfold try_except. rewrite run_program_unfold, Hs.
  destruct l; unfold bind at 1; rewrite (run_cmd_timeout spawn _ _ _ Hhang);
    cbn; eauto.
Qed.

(** C4. Evaluation at a Python submission whose program runs into the
    timeout. When that happens in [run_program], [main] catches the
    [CheckError] and records [file_io] as failed. When it happens in the
    error-path probe nothing catches it: [main] raises and prints no
    report. *)
Theorem C4_probe_timeout_escapes r w :
  (forall w1,
     is_Some (w1 !! "process_orders.py") ->
     fst (spawn (first_command sys_executable python "100" (clean w1))
                (timeout_of r) (clean w1)) = TimedOut ->
     exists out w2,
       try_except (run_program sys_executable spawn python (timeout_of r) "100")
         is_CheckError (fun e => ret (false, exn_str e)) w1
       = (Ok (false, out), w2)) /\
  ((forall t w0, fst (spawn (probe_command sys_executable) t w0) = TimedOut) ->
   exists e w',
     main sys_executable spawn json_loads float_of_str py_format (Some python) r w
     = (Raise e, w')).
Proof.
  split.
  - intros w1 Hs Hhang.
    destruct (run_program_timeout_is_caught python (timeout_of r) "100" w1 Hs Hhang)
      as [w2 H].
    eauto.
  - intros Hhang.
    destruct (main sys_executable spawn json_loads float_of_str py_format
                (Some python) r w) as [[[p status]|e] w'] eqn:Hmain; [exfalso | eauto].
    apply main_inv in Hmain. destruct p as [msg|d].
    + destruct Hmain as [Hd _]. discriminate.
    + destruct Hmain as (o & lg & mark & w1 & w2 & w3 & w4 & Hd & _ & _ & _ & Heh & _).
      cbn in Hd. inversion Hd as [Hl]. rewrite <- Hl in Heh.
      destruct (python_probe_hangs (timeout_of r) w3 (Hhang _ _)) as (msg & w5 & Hr).
      rewrite Hr in Heh. discriminate.
Qed.

(** ** Output validation *)

Lemma missing_keys_keeps s keys : forall iss iss',
  missing_keys s keys iss = Ok iss' ->
  (forall K, iss !! K = Some "missing key" -> iss' !! K = Some "missing key") /\
  (forall K, (forall key, key ∈ keys -> K <> "summary.json:" ++ key) ->
             iss' !! K = iss !! K).
Proof.
  induction keys as [|key keys IH]; intros iss iss' H; simpl in H.
  - by inversion H.
  - destruct (PyVal.contains key s) as [[|]|e]; [| |discriminate].
    + apply IH in H as [H1 H2]. split; [done|].
      intros K HK. apply H2. intros key' Hk'. apply HK. by constructor.
    + apply IH in H as [H1 H2]. split.
      * intros K HK. apply H1.
        destruct (decide (K = "summary.json:" ++ key)) as [->|Hne].
        -- by rewrite lookup_insert_eq.
        -- by rewrite lookup_insert_ne.
      * intros K HK. rewrite H2.
        -- rewrite lookup_insert_ne; [done|]. intros Heq. eapply HK; [|done].
           constructor.
        -- intros key' Hk'. apply HK. by constructor.
Qed.


Lemma check_metric_spec s key expected shown tol iss iss' :
  check_metric float_of_str py_format s key expected shown tol iss = Ok iss' ->
  touches_only key iss iss' /\
  (forall v, PyVal.contains key s = Ok true -> PyVal.getitem s key = Ok v ->
     approx float_of_str v (JFloat expected) tol = Ok false ->
     is_Some (iss' !! key)).
Proof.
  unfold check_metric, touches_only.
  destruct (PyVal.contains key s) as [[|]|e] eqn:Hc; [| |discriminate].
  - destruct (PyVal.getitem s key) as [v|e] eqn:Hg; [|discriminate].
    destruct (approx float_of_str v (JFloat expected) tol) as [[|]|e] eqn:Ha;
      [| |discriminate]; intros H; inversion H; subst; clear H.
    + split; [done|]. intros v' _ Hv Ha'. congruence.
    + split; [intros K HK; by rewrite lookup_insert_ne|].
      intros v' _ _ _. rewrite lookup_insert_eq. eauto.
  - intros H; inversion H; subst. split; [done|]. intros v Hc'. congruence.
Qed.

Lemma check_counts_spec s iss iss' :
  check_counts py_format s iss = Ok iss' ->
  touches_only "orders_per_category" iss iss'.
Proof.
  unfold check_counts, touches_only.
  destruct (PyVal.contains _ s) as [[|]|e]; [| |discriminate].
  - destruct (PyVal.getitem s _) as [v|e]; [|discriminate].
    destruct (any_differs v expected_counts) as [[|]|e]; [| |discriminate];
      intros H; inversion H; subst; [|done].
    intros K HK. by rewrite lookup_insert_ne.
  - by intros H; inversion H.
Qed.

Lemma check_top_spec s iss iss' :
  check_top py_format s iss = Ok iss' ->
  touches_only "top_category_by_revenue" iss iss'.
Proof.
  unfold check_top, touches_only.
  destruct (PyVal.contains _ s) as [[|]|e]; [| |discriminate].
  - destruct (PyVal.getitem s _) as [v|e]; [|discriminate].
    destruct (PyVal.ne_str v "Electronics"); intros H; inversion H; subst; [|done].
    intros K HK. by rewrite lookup_insert_ne.
  - by intros H; inversion H.
Qed.

Lemma load_json_eq path w text :
  w !! path = Some text ->
  load_json json_loads path w =
  match json_loads text with
  | inl msg => (Raise (JSONDecodeError msg), w)
  | inr v => (Ok v, w)
  end.
Proof.
  intros H. unfold load_json, bind, read_text. rewrite H.
  by destruct (json_loads text).
Qed.

Lemma validate_outputs_missing tol w :
  w !! "summary.json" = None ->
  validate_outputs json_loads float_of_str py_format tol w
  = (Ok (<["summary.json" := "missing"]> ∅), w).
Proof.
  intros H. unfold validate_outputs, bind at 1, exists_, path_exists.
  by rewrite bool_decide_eq_false_2 by (rewrite H; by intros [? ?]).
Qed.

Lemma validate_outputs_unparsed tol w text msg :
  w !! "summary.json" = Some text -> json_loads text = inl msg ->
  validate_outputs json_loads float_of_str py_format tol w
  = (Ok (<["summary.json" := "not valid JSON: " ++ msg]> ∅), w).
Proof.
  intros H Hj. unfold validate_outputs, bind at 1, exists_, path_exists.
  rewrite bool_decide_eq_true_2 by (rewrite H; eauto). cbn [negb].
  unfold bind at 1, try_except, bind at 1.
  rewrite (load_json_eq _ _ _ H), Hj. reflexivity.
Qed.

Lemma validate_outputs_loaded tol w text s iss w' :
  w !! "summary.json" = Some text -> json_loads text = inr s ->
  validate_outputs json_loads float_of_str py_format tol w = (Ok iss, w') ->
  exists i1 i2 i3 i4 i5,
    missing_keys s required_keys ∅ = Ok i1 /\
    check_metric float_of_str py_format s "total_revenue" PyFloat.lit_303_47
      "303.47" tol i1 = Ok i2 /\
    check_metric float_of_str py_format s "average_order_value" PyFloat.lit_75_87
      "75.87" tol i2 = Ok i3 /\
    check_counts py_format s i3 = Ok i4 /\
    check_top py_format s i4 = Ok i5 /\
    iss = with_csv_issue w i5 /\ w' = w.
Proof.
  intros H Hj. unfold validate_outputs, bind at 1, exists_, path_exists.
  rewrite bool_decide_eq_true_2 by (rewrite H; eauto). cbn [negb].
  unfold bind at 1, try_except, bind at 1.
  rewrite (load_json_eq _ _ _ H), Hj. cbn [ret].
  intros Hv.
  apply bind_ok in Hv as (i1 & ? & H1 & Hv). apply lift_ok in H1 as [H1 <-].
  apply bind_ok in Hv as (i2 & ? & H2 & Hv). apply lift_ok in H2 as [H2 <-].
  apply bind_ok in Hv as (i3 & ? & H3 & Hv). apply lift_ok in H3 as [H3 <-].
  apply bind_ok in Hv as (i4 & ? & H4 & Hv). apply lift_ok in H4 as [H4 <-].
  apply bind_ok in Hv as (i5 & ? & H5 & Hv). apply lift_ok in H5 as [H5 <-].
  exists i1, i2, i3, i4, i5. split_and!; try done.
  - revert Hv. unfold with_csv_issue, bind at 1, exists_, path_exists.
    destruct (w !! "high_value_orders.csv") as [t|] eqn:Hc.
    + rewrite bool_decide_eq_true_2 by eauto. cbn [negb].
      unfold bind at 1, read_text. rewrite Hc.
      destruct (negb _); intros Hv; by inversion Hv.
    + rewrite bool_decide_eq_false_2 by (by intros [? ?]). cbn [negb].
      intros Hv; by inversion Hv.
  - revert Hv. unfold bind at 1, exists_, path_exists.
    destruct (w !! "high_value_orders.csv") as [t|] eqn:Hc.
    + rewrite bool_decide_eq_true_2 by eauto. cbn [negb].
      unfold bind at 1, read_text. rewrite Hc.
      destruct (negb _); intros Hv; by inversion Hv.
    + rewrite bool_decide_eq_false_2 by (by intros [? ?]). cbn [negb].
      intros Hv; by inversion Hv.
Qed.

Lemma with_csv_issue_other w iss K :
  K <> "high_value_orders.csv" -> K <> "high_value_orders.csv:header" ->
  with_csv_issue w iss !! K = iss !! K.
Proof.
  intros H1 H2. unfold with_csv_issue.
  destruct (w !! "high_value_orders.csv"); [|by rewrite lookup_insert_ne].
  cbn zeta. destruct (negb _); [by rewrite lookup_insert_ne | done].
Qed.


End GraderFacts.

(** ** Binary64 arithmetic on integers *)

(** The literals of the source are the correctly rounded decimals. *)
Lemma literals_correctly_rounded :
  PyFloat.lit_0_7 = PyFloat.decimal 7 10 /\
  PyFloat.lit_303_47 = PyFloat.decimal 30347 100 /\
  PyFloat.lit_75_87 = PyFloat.decimal 7587 100.
Proof. split_and!; vm_compute; reflexivity. Qed.





















Section Approx.

Variable float_of_str : string -> option spec_float.


End Approx.

(** ** The statements at the example submissions *)

Import Examples.

Lemma report_summary_inv x l s m p st bs :
  report_summary x = Some (l, s, m, p, st, bs) ->
  exists d w', x = (Ok (Report d, st), w') /\
    lang d = l /\ score d = s /\ max_score d = m /\ passed d = p.
Proof.
  unfold report_summary. destruct x as [[[[e|d] st']|e] w']; cbn; try discriminate.
  intros H. inversion H; subst. eauto 10.
Qed.

Lemma rubric_100_names : dom (weights rubric_100) = list_to_set check_names.
Proof. cbn [weights rubric_100]. rewrite dom_list_to_map_L. reflexivity. Qed.

Lemma rubric_100_nonneg k v : weights rubric_100 !! k = Some v -> 0 <= v.
Proof.
  revert k v. apply map_Forall_lookup. apply (bool_decide_unpack _).
  vm_compute. exact I.
Qed.

Lemma good_python_run :
  report_summary
    (main interpreter good_program load_summary no_float plain_format
          None rubric_100 python_submission)
  = Some (python, 100, 100, true, 0, [true; true; true; true; true; true; true]).
Proof. vm_compute. reflexivity. Qed.

Lemma C1_witness :
  exists d status w',
    main interpreter good_program load_summary no_float plain_format
         None rubric_100 python_submission = (Ok (Report d, status), w') /\
    score d =
      sum_with (fun k => if recorded_pass d k then weight_of (weights rubric_100) k else 0)
               check_names /\
    0 <= score d <= max_score d.
Proof.
  destruct (report_summary_inv _ _ _ _ _ _ _ good_python_run)
    as (d & w' & Hrun & _).
  destruct (C1_score_sums_passing_weights _ _ _ _ _ _ _ _ _ _ _
              rubric_100_names rubric_100_nonneg Hrun) as (_ & Hs & _ & Hb).
  exists d, 0, w'. split; [exact Hrun|]. split; [exact Hs | exact Hb].
Defined.

(** C2. Evaluation at a rubric whose weights sum to 90 and a submission
    that earns 62 points: [int(0.7 * 90)] is 62 in binary64 arithmetic, so
    the report says passed and [main] returns 0, although 62 is below
    [floor(0.70 * 90) = 63]. With weights that sum to 100 the pass mark is
    the expected 70. *)
Theorem C2_pass_mark_at_90 :
  report_summary
    (main interpreter sloppy_program load_summary no_float plain_format
          None rubric_90 python_no_models)
  = Some (python, 62, 90, true, 0, [true; true; false; true; true; false; false]) /\
  sum_values (weights rubric_90) = 90 /\
  pass_mark 90 = Ok 62 /\
  7 * 90 / 10 = 63 /\
  pass_mark 100 = Ok 70.
Proof. split_and!; vm_compute; reflexivity. Qed.



Lemma probe_timeout_run :
  fst (main interpreter hangs_on_missing_input load_summary no_float plain_format
            None rubric_100 python_submission)
  = Raise (CheckError "Timed out running: python3 process_orders.py --input nope.csv").
Proof. vm_compute. reflexivity. Qed.

Lemma C4_witness :
  exists e w',
    main interpreter hangs_on_missing_input load_summary no_float plain_format
         (Some python) rubric_100 python_submission = (Raise e, w').
Proof.
  destruct (C4_probe_timeout_escapes interpreter hangs_on_missing_input load_summary
              no_float plain_format rubric_100 python_submission) as (_ & H).
  apply H. intros t w0. reflexivity.
Defined.

Lemma C5_counterexample :
  (∅ : dir) !! "OrderProcessor.java" = None /\
  (∅ : dir) !! "Order.java" = None /\
  static_value (static_checks_java ∅) "functions" = Some true.
Proof. split_and!; vm_compute; reflexivity. Qed.

Lemma C5_witness :
  exists ok,
    static_checks_python ∅ = (Ok ok, ∅) /\
    ok !! "functions" = Some false /\ ok !! "control_flow" = Some false /\
    ok !! "oop" = Some false.
Proof.
  destruct (C5_predicates_of_absent_files ∅) as ((ok & Hr & H1 & H2) & _).
  exists ok. split; [exact Hr|].
  destruct (H1 ltac:(reflexivity)) as [Hf Hc].
  split; [exact Hf|]. split; [exact Hc|]. apply H2. reflexivity.
Defined.

Lemma C6_witness :
  static_checks_java java_submission
  = (Raise (ReError Re.unterminated_subpattern), java_submission).
Proof.
  apply (C6_java_control_flow_raises java_submission
           "class OrderProcessor { void run() { for (;;) { } } }").
  vm_compute. reflexivity.
Defined.




Lemma C10_witness :
  detect None mixed_submission = (Ok (Some python), mixed_submission).
Proof.
  destruct (C10_python_takes_precedence interpreter good_program load_summary no_float
              plain_format rubric_100 mixed_submission) as (H & _).
  - right. vm_compute. reflexivity.
  - left. vm_compute. reflexivity.
  - exact H.
Defined.



(** * Further properties of the grader *)

(** ** What the stages do to the working directory *)

Lemma preserves_ret {A} P (a : A) : preserves P (ret a).
Proof. by intros w H. Qed.

Lemma preserves_raise {A} P e : preserves P (raise e : M A).
Proof. by intros w H. Qed.

Lemma preserves_lift {A} P (r : result A) : preserves P (lift r).
Proof. by intros w H. Qed.

Lemma preserves_bind {A B} P (m : M A) (k : A -> M B) :
  preserves P m -> (forall a, preserves P (k a)) -> preserves P (bind m k).
Proof.
  intros Hm Hk w H. unfold bind. specialize (Hm w H).
  destruct (m w) as [[a|e] w1]; simpl in *; [by apply Hk | done].
Qed.

Lemma preserves_try {A} P (m : M A) handles h :
  preserves P m -> (forall e, preserves P (h e)) -> preserves P (try_except m handles h).
Proof.
  intros Hm Hh w H. unfold try_except. specialize (Hm w H).
  destruct (m w) as [[a|e] w1]; simpl in *; [done|].
  destruct (handles e); [by apply Hh | done].
Qed.

Lemma preserves_exists P p : preserves P (exists_ p).
Proof. by intros w H. Qed.

Lemma preserves_read_text P p : preserves P (read_text p).
Proof. intros w H. unfold read_text. by destruct (w !! p). Qed.

Lemma preserves_listdir P : preserves P os_listdir.
Proof. by intros w H. Qed.

Lemma preserves_lift_re {A} P (r : Re.error + A) : preserves P (lift_re r).
Proof. intros w H. by destruct r. Qed.

Lemma preserves_weight P ws k : preserves P (weight ws k).
Proof. intros w H. unfold weight. by destruct (ws !! k). Qed.

Lemma preserves_remove P p :
  (forall w, P w -> P (delete p w)) -> preserves P (os_remove p).
Proof. intros Hd w H. unfold os_remove. destruct (w !! p); simpl; auto. Qed.

Ltac preserves_step :=
  first
    [ apply preserves_ret | apply preserves_raise | apply preserves_lift
    | apply preserves_exists | apply preserves_read_text | apply preserves_listdir
    | apply preserves_lift_re | apply preserves_weight
    | (apply preserves_remove; assumption)
    | assumption
    | (apply preserves_bind; [|intros ?])
    | (apply preserves_try; [|intros ?])
    | match goal with
      | |- preserves _ (match ?x with _ => _ end) => destruct x
      | |- preserves _ (let (_, _) := ?x in _) => destruct x
      end ].

Ltac preserves_auto := repeat preserves_step.

Section Frame.

Variable sys_executable : string.
Variable spawn : list string -> Z -> dir -> outcome * dir.
Variable json_loads : string -> string + json.
Variable float_of_str : string -> option spec_float.
Variable py_format : json -> string.

Variable P : dir -> Prop.
Hypothesis spawn_keeps : forall cmd t w, P w -> P (snd (spawn cmd t w)).
Hypothesis summary_free : forall w, P w -> P (delete "summary.json" w).
Hypothesis csv_free : forall w, P w -> P (delete "high_value_orders.csv" w).

Lemma preserves_run_cmd cmd t : preserves P (run_cmd spawn cmd t).
Proof.
  intros w H. unfold run_cmd. specialize (spawn_keeps cmd t w H).
  by destruct (spawn cmd t w) as [[c o e|] w1].
Qed.

Ltac preserves_run := repeat first [apply preserves_run_cmd | preserves_step].

Lemma preserves_detect args : preserves P (detect args).
Proof.
  intros w H. unfold detect, detect_python_files, detect_java_files, bind, ret.
  destruct args; [done|]. cbn.
  destruct (path_exists w "process_orders.py" || _); [done|].
  by destruct (path_exists w "Order.java" || _).
Qed.

Lemma preserves_static l : preserves P (static_checks l).
Proof.
  destruct l; unfold static_checks, static_checks_python, static_checks_java;
    preserves_auto.
Qed.

Lemma preserves_run_program l t th :
  preserves P (run_program sys_executable spawn l t th).
Proof.
  unfold run_program, java_sources. cbn [for_each]. preserves_run.
Qed.

Lemma preserves_validate tol :
  preserves P (validate_outputs json_loads float_of_str py_format tol).
Proof.
  unfold validate_outputs, load_json. preserves_auto.
Qed.

Lemma preserves_error_path l t :
  preserves P (error_path_check sys_executable spawn l t).
Proof.
  unfold error_path_check, java_sources. preserves_run.
Qed.

Lemma preserves_unit_tests l t :
  preserves P (run_unit_tests sys_executable spawn l t).
Proof.
  unfold run_unit_tests, java_sources. preserves_run.
Qed.

Lemma preserves_record_check ws k ok iss lg t :
  preserves P (record_check ws k ok iss lg t).
Proof. unfold record_check. preserves_auto. Qed.

Lemma preserves_record_static ws static keys : forall t,
  preserves P (record_static ws static keys t).
Proof.
  induction keys as [|k keys IH]; intros t; cbn [record_static].
  - apply preserves_ret.
  - apply preserves_bind; [apply preserves_record_check | intros; apply IH].
Qed.

(** X1. [main] changes the working directory only by deleting
    [summary.json] and [high_value_orders.csv] and through the child
    processes it runs: a property of the directory that those keep holds
    after [main], whether it prints a report, prints the error record or
    raises. *)
Theorem main_keeps_what_children_keep args r w :
  P w ->
  P (snd (main sys_executable spawn json_loads float_of_str py_format args r w)).
Proof.
  revert w. change (preserves P
    (main sys_executable spawn json_loads float_of_str py_format args r)).
  unfold main.
  pose proof preserves_run_cmd. pose proof preserves_detect.
  pose proof preserves_run_program. pose proof preserves_validate.
  pose proof preserves_error_path. pose proof preserves_unit_tests.
  pose proof preserves_record_check. pose proof preserves_record_static.
  pose proof (preserves_static python). pose proof (preserves_static java).
  apply preserves_bind; [done|]. intros [l|]; [|apply preserves_ret].
  apply preserves_bind; [by destruct l|]. intros static.
  apply preserves_bind; [done|]. intros t.
  apply preserves_bind; [apply preserves_try; [done | intros; apply preserves_ret]|].
  intros [ok lg].
  apply preserves_bind; [done|]. intros t1.
  apply preserves_bind; [done|]. intros iss.
  apply preserves_bind; [done|]. intros t2.
  apply preserves_bind; [done|]. intros eh.
  apply preserves_bind; [done|]. intros t3.
  apply preserves_bind; [done|]. intros [ut utl].
  apply preserves_bind; [done|]. intros t4.
  apply preserves_bind; [apply preserves_lift|]. intros mark.
  apply preserves_ret.
Qed.

End Frame.

(** ** Unit tests and the error-path probe *)

Lemma listdir_entry (w : dir) n : In n (map fst (map_to_list w)) <-> is_Some (w !! n).
Proof.
  rewrite in_map_iff. split.
  - intros ([k x] & <- & Hin). apply list_elem_of_In, elem_of_map_to_list in Hin. eauto.
  - intros [x Hx]. exists (n, x). split; [done|].
    by apply list_elem_of_In, elem_of_map_to_list.
Qed.

Lemma has_java_tests_false w :
  has_java_tests w = false <->
  forall n, is_Some (w !! n) -> PyStr.endswith (PyStr.lower n) "test.java" = false.
Proof.
  unfold has_java_tests. split.
  - intros H n Hn. apply listdir_entry in Hn.
    destruct (PyStr.endswith (PyStr.lower n) "test.java") eqn:E; [|done].
    assert (existsb (fun n => PyStr.endswith (PyStr.lower n) "test.java")
              (map fst (map_to_list w)) = true) as Ht
      by (apply existsb_exists; eauto).
    congruence.
  - intros H. apply not_true_is_false. intros (n & Hn & E)%existsb_exists.
    apply listdir_entry in Hn. rewrite (H n Hn) in E. discriminate.
Qed.

Section UnitTests.

Variable sys_executable : string.
Variable spawn : list string -> Z -> dir -> outcome * dir.

Lemma run_unit_tests_python t w :
  run_unit_tests sys_executable spawn python t w =
  if path_exists w "tests" then
    (let* (code, out, err) := run_cmd spawn (unittest_command sys_executable) t in
     ret (code =? 0, out ++ err)) w
  else (Ok (true, ""), w).
Proof.
  unfold run_unit_tests. cbn [language_eqb]. unfold bind at 1, exists_.
  by destruct (path_exists w "tests").
Qed.

Lemma run_unit_tests_java t w :
  run_unit_tests sys_executable spawn java t w =
  if has_java_tests w then
    try_except
      (let* _ := run_cmd spawn (junit_compile_command w) t in
       let* (code, out, err) := run_cmd spawn junit_run_command t in
       ret (code =? 0, out ++ err))
      (fun _ => true)
      (fun e => ret (false, "JUnit run failed: " ++ exn_str e)) w
  else (Ok (true, ""), w).
Proof.
  unfold run_unit_tests. cbn [language_eqb]. unfold bind at 1, ret at 1.
  unfold bind at 1, os_listdir. fold (has_java_tests w).
  destruct (has_java_tests w); [|done].
  unfold try_except, bind at 1, java_sources, bind at 1, os_listdir, ret at 1.
  reflexivity.
Qed.

(** X2. Unit tests are optional: for a Python submission without a
    [tests] entry, and for a Java submission in which no entry is named
    like [*test.java] in any case, [run_unit_tests] returns [(True, '')]
    and leaves the working directory as it was. *)
Theorem unit_tests_not_required l timeout w :
  (l = python -> w !! "tests" = None) ->
  (l = java ->
   forall n, is_Some (w !! n) -> PyStr.endswith (PyStr.lower n) "test.java" = false) ->
  run_unit_tests sys_executable spawn l timeout w = (Ok (true, ""), w).
Proof.
  intros Hpy Hjava. destruct l.
  - rewrite run_unit_tests_python.
    by rewrite (proj2 (path_exists_false w "tests") (Hpy eq_refl)).
  - rewrite run_unit_tests_java.
    by rewrite (proj2 (has_java_tests_false w) (Hjava eq_refl)).
Qed.

(** X3. For Java [run_unit_tests] never raises. A timeout of the compiler
    or of the JUnit run is returned as a failed check whose log is
    [JUnit run failed: Timed out running: <command>]; otherwise the result
    is the exit status and output of the JUnit run, whatever status the
    compiler returned. *)
Theorem java_unit_tests_never_raise timeout w :
  exists ok lg w',
    run_unit_tests sys_executable spawn java timeout w = (Ok (ok, lg), w') /\
    (has_java_tests w = true ->
       (fst (spawn (junit_compile_command w) timeout w) = TimedOut ->
          ok = false /\
          lg = "JUnit run failed: " ++ timed_out_message (junit_compile_command w)) /\
       (forall c o e w1,
          spawn (junit_compile_command w) timeout w = (Exited c o e, w1) ->
          (fst (spawn junit_run_command timeout w1) = TimedOut ->
             ok = false /\
             lg = "JUnit run failed: " ++ timed_out_message junit_run_command) /\
          (forall c2 o2 e2 w2,
             spawn junit_run_command timeout w1 = (Exited c2 o2 e2, w2) ->
             ok = (c2 =? 0) /\ lg = o2 ++ e2 /\ w' = w2))).
Proof.
  rewrite run_unit_tests_java. destruct (has_java_tests w);
    [|eexists _, _, _; split; [reflexivity | discriminate]].
  unfold try_except, bind at 1, run_cmd at 1.
  destruct (spawn (junit_compile_command w) timeout w) as [[c o e|] w1] eqn:E1.
  - unfold bind at 1, run_cmd at 1.
    destruct (spawn junit_run_command timeout w1) as [[c2 o2 e2|] w2] eqn:E2.
    + eexists _, _, _. split; [reflexivity|]. intros _. split; [done|].
      intros ? ? ? ? [= <- <- <- <-]. rewrite E2. split; [done|].
      by intros ? ? ? ? [= <- <- <- <-].
    + eexists _, _, _. split; [reflexivity|]. intros _. split; [done|].
      intros ? ? ? ? [= <- <- <- <-]. rewrite E2. split; [done|].
      intros ? ? ? ? [=].
  - eexists _, _, _. split; [reflexivity|]. intros _. split; [done|].
    intros ? ? ? ? [=].
Qed.


End UnitTests.

Section Probe.

Variable sys_executable : string.
Variable spawn : list string -> Z -> dir -> outcome * dir.
Variable json_loads : string -> string + json.
Variable float_of_str : string -> option spec_float.
Variable py_format : json -> string.


(** X5. A Python submission with a [tests] entry whose unit-test run
    reaches the timeout: when no child process removes [tests], [main]
    raises and prints no report. *)
Theorem python_unit_test_timeout_escapes r w :
  is_Some (w !! "tests") ->
  (forall cmd t w0,
     is_Some (w0 !! "tests") -> is_Some (snd (spawn cmd t w0) !! "tests")) ->
  (forall t w0, fst (spawn (unittest_command sys_executable) t w0) = TimedOut) ->
  exists e w',
    main sys_executable spawn json_loads float_of_str py_format (Some python) r w
    = (Raise e, w').
Proof.
  intros Ht Hkeep Hhang.
  destruct (main sys_executable spawn json_loads float_of_str py_format
              (Some python) r w) as [[[p status]|e] w'] eqn:Hmain; [exfalso | eauto].
  apply main_inv in Hmain. destruct p as [msg|d].
  { destruct Hmain as [Hd _]. discriminate. }
  destruct Hmain as (o & lg & mark & w1 & w2 & w3 & w4 & Hd & Hs & Hr & Hv & He & Hu & _).
  cbn in Hd. inversion Hd as [Hl]. rewrite <- Hl in *. clear Hd Hl.
  set (P := fun w0 : dir => is_Some (w0 !! "tests")).
  assert (forall w0, P w0 -> P (delete "summary.json" w0)) as D1
    by (intros w0 H0; unfold P; by rewrite lookup_delete_ne).
  assert (forall w0, P w0 -> P (delete "high_value_orders.csv" w0)) as D2
    by (intros w0 H0; unfold P; by rewrite lookup_delete_ne).
  assert (P w1) as P1.
  { pose proof (preserves_static P python w Ht) as H. by rewrite Hs in H. }
  assert (P w2) as P2.
  { pose proof (preserves_try P _ is_CheckError _
      (preserves_run_program sys_executable spawn P Hkeep D1 D2 python (timeout_of r) "100")
      (fun e => preserves_ret P (false, exn_str e)) w1 P1) as H.
    by rewrite Hr in H. }
  assert (P w3) as P3.
  { pose proof (preserves_validate json_loads float_of_str py_format P
                  (tolerances_float r) w2 P2) as H.
    by rewrite Hv in H. }
  assert (P w4) as P4.
  { pose proof (preserves_error_path sys_executable spawn P Hkeep python
                  (timeout_of r) w3 P3) as H.
    by rewrite He in H. }
  rewrite run_unit_tests_python in Hu.
  rewrite (proj2 (path_exists_true w4 "tests") P4) in Hu.
  unfold bind at 1 in Hu. rewrite (run_cmd_timeout spawn _ _ _ (Hhang _ _)) in Hu.
  discriminate.
Qed.

End Probe.

(** ** More on output validation *)

Lemma append_nil_l (s : string) : "" ++ s = s.
Proof. reflexivity. Qed.

Lemma append_cons a (s t : string) : String a s ++ t = String a (s ++ t).
Proof. reflexivity. Qed.

Lemma readline_first_line line c rest :
  one_line line = true -> PyStr.is_newline c = true ->
  PyStr.readline (line ++ String c rest) = line ++ String (ascii_of_nat 10) EmptyString.
Proof.
  intros Hl Hc. induction line as [|a line IH].
  - rewrite !append_nil_l. cbn [PyStr.readline]. by rewrite Hc.
  - cbn [one_line] in Hl. apply andb_true_iff in Hl as [Ha Hl].
    apply negb_true_iff in Ha. rewrite !append_cons. cbn [PyStr.readline].
    rewrite Ha. by rewrite IH.
Qed.

Lemma rstrip_newline s :
  PyStr.rstrip (s ++ String (ascii_of_nat 10) EmptyString) = PyStr.rstrip s.
Proof.
  induction s as [|a s IH]; [reflexivity|].
  rewrite append_cons. cbn [PyStr.rstrip]. by rewrite IH.
Qed.

Lemma strip_newline s :
  PyStr.strip (s ++ String (ascii_of_nat 10) EmptyString) = PyStr.strip s.
Proof.
  unfold PyStr.strip. induction s as [|a s IH]; [reflexivity|].
  rewrite append_cons. cbn [PyStr.lstrip]. destruct (PyStr.isspace a); [exact IH|].
  apply (rstrip_newline (String a s)).
Qed.

Lemma ok_pair_inj {A} (a b : A) (w w' : dir) :
  (Ok a, w) = (Ok b, w') -> a = b /\ w = w'.
Proof. intros H. split; congruence. Qed.

Lemma insert_not_empty (K v : string) (m : gmap string string) : <[K := v]> m <> ∅.
Proof. apply insert_non_empty. Qed.

Lemma missing_keys_empty s keys : forall iss,
  missing_keys s keys iss = Ok ∅ ->
  iss = ∅ /\ forall key, key ∈ keys -> PyVal.contains key s = Ok true.
Proof.
  induction keys as [|k keys IH]; intros iss H; simpl in H.
  - inversion H. split; [done|]. intros key Hk. by apply elem_of_nil in Hk.
  - destruct (PyVal.contains k s) as [[|]|e] eqn:Hc; [| |discriminate].
    + apply IH in H as [-> H]. split; [done|].
      intros key [->|Hk]%elem_of_cons; auto.
    + apply IH in H as [H _]. by apply insert_not_empty in H.
Qed.

Section Validation.

Variable sys_executable : string.
Variable spawn : list string -> Z -> dir -> outcome * dir.
Variable json_loads : string -> string + json.
Variable float_of_str : string -> option spec_float.
Variable py_format : json -> string.

Lemma check_metric_empty s key expected shown tol iss :
  check_metric float_of_str py_format s key expected shown tol iss = Ok ∅ ->
  iss = ∅ /\
  (PyVal.contains key s = Ok true ->
   exists v, PyVal.getitem s key = Ok v /\
             approx float_of_str v (JFloat expected) tol = Ok true).
Proof.
  unfold check_metric. intros H.
  destruct (PyVal.contains key s) as [[|]|e]; [| |discriminate].
  - destruct (PyVal.getitem s key) as [v|e]; [|discriminate].
    destruct (approx float_of_str v (JFloat expected) tol) as [[|]|e] eqn:Ha;
      [| |discriminate].
    + inversion H. eauto.
    + inversion H as [H']. by apply insert_not_empty in H'.
  - inversion H. split; [done | discriminate].
Qed.

Lemma check_counts_empty s iss :
  check_counts py_format s iss = Ok ∅ ->
  iss = ∅ /\
  (PyVal.contains "orders_per_category" s = Ok true ->
   exists opc, PyVal.getitem s "orders_per_category" = Ok opc /\
               any_differs opc expected_counts = Ok false).
Proof.
  unfold check_counts. intros H.
  destruct (PyVal.contains "orders_per_category" s) as [[|]|e]; [| |discriminate].
  - destruct (PyVal.getitem s "orders_per_category") as [v|e]; [|discriminate].
    destruct (any_differs v expected_counts) as [[|]|e] eqn:Ha; [| |discriminate].
    + inversion H as [H']. by apply insert_not_empty in H'.
    + inversion H. eauto.
  - inversion H. split; [done | discriminate].
Qed.

Lemma ne_str_false v t : PyVal.ne_str v t = false <-> v = JStr t.
Proof.
  destruct v; simpl; try (split; [discriminate | intros [=]]).
  rewrite negb_false_iff, String.eqb_eq. split; [by intros -> | by intros [= ->]].
Qed.

Lemma check_top_empty s iss :
  check_top py_format s iss = Ok ∅ ->
  iss = ∅ /\
  (PyVal.contains "top_category_by_revenue" s = Ok true ->
   PyVal.getitem s "top_category_by_revenue" = Ok (JStr "Electronics")).
Proof.
  unfold check_top. intros H.
  destruct (PyVal.contains "top_category_by_revenue" s) as [[|]|e]; [| |discriminate].
  - destruct (PyVal.getitem s "top_category_by_revenue") as [v|e]; [|discriminate].
    destruct (PyVal.ne_str v "Electronics") eqn:Hn.
    + inversion H as [H']. by apply insert_not_empty in H'.
    + inversion H. apply ne_str_false in Hn as ->. eauto.
  - inversion H. split; [done | discriminate].
Qed.

Lemma with_csv_issue_empty w iss :
  with_csv_issue w iss = ∅ ->
  iss = ∅ /\
  exists csv, w !! "high_value_orders.csv" = Some csv /\
              PyStr.strip (PyStr.readline csv) = expected_header.
Proof.
  unfold with_csv_issue. destruct (w !! "high_value_orders.csv") as [csv|].
  - cbn zeta. destruct (String.eqb _ expected_header) eqn:E; cbn [negb].
    + intros ->. apply String.eqb_eq in E. eauto.
    + intros H. by apply insert_not_empty in H.
  - intros H. by apply insert_not_empty in H.
Qed.

Lemma validate_outputs_dir tol w :
  snd (validate_outputs json_loads float_of_str py_format tol w) = w.
Proof.
  by apply (preserves_validate json_loads float_of_str py_format (fun w' => w' = w)).
Qed.

(** X6. The stages that only inspect the submission, language detection,
    the static checks and [validate_outputs], leave the working directory
    exactly as it was, whether they return or raise. *)
Theorem inspection_is_read_only args l tol w :
  snd (detect args w) = w /\
  snd (static_checks l w) = w /\
  snd (validate_outputs json_loads float_of_str py_format tol w) = w.
Proof.
  split_and!.
  - by apply (preserves_detect (fun w' => w' = w)).
  - by apply (preserves_static (fun w' => w' = w)).
  - apply validate_outputs_dir.
Qed.

(** X7. [validate_outputs] reports no issue exactly when [summary.json]
    loads to a value with the four required keys, both metrics are within
    the tolerance of 303.47 and 75.87, the counts of Books, Electronics
    and Toys are 2, 1 and 1, the top category is the string Electronics,
    and the first line of [high_value_orders.csv], stripped, is the
    expected header. *)
Theorem validate_outputs_accepts_iff tol w :
  fst (validate_outputs json_loads float_of_str py_format tol w) = Ok ∅ <->
  exists text s csv,
    w !! "summary.json" = Some text /\ json_loads text = inr s /\
    (forall key, key ∈ required_keys -> PyVal.contains key s = Ok true) /\
    (exists v, PyVal.getitem s "total_revenue" = Ok v /\
       approx float_of_str v (JFloat PyFloat.lit_303_47) tol = Ok true) /\
    (exists v, PyVal.getitem s "average_order_value" = Ok v /\
       approx float_of_str v (JFloat PyFloat.lit_75_87) tol = Ok true) /\
    (exists opc, PyVal.getitem s "orders_per_category" = Ok opc /\
       any_differs opc expected_counts = Ok false) /\
    PyVal.getitem s "top_category_by_revenue" = Ok (JStr "Electronics") /\
    w !! "high_value_orders.csv" = Some csv /\
    PyStr.strip (PyStr.readline csv) = expected_header.
Proof.
  split.
  - intros H.
    destruct (validate_outputs json_loads float_of_str py_format tol w)
      as [r w'] eqn:Hv. cbn [fst] in H. subst r.
    destruct (w !! "summary.json") as [text|] eqn:Ht.
    2:{ rewrite (validate_outputs_missing _ _ _ _ _ Ht) in Hv.
        apply ok_pair_inj in Hv as [H' _]. by apply insert_not_empty in H'. }
    destruct (json_loads text) as [msg|s] eqn:Hj.
    { rewrite (validate_outputs_unparsed _ _ _ _ _ _ _ Ht Hj) in Hv.
      apply ok_pair_inj in Hv as [H' _]. by apply insert_not_empty in H'. }
    destruct (validate_outputs_loaded _ _ _ _ _ _ _ _ _ Ht Hj Hv)
      as (i1 & i2 & i3 & i4 & i5 & H1 & H2 & H3 & H4 & H5 & Hi & ->).
    symmetry in Hi. apply with_csv_issue_empty in Hi as (-> & csv & Hc & Hh).
    apply check_top_empty in H5 as [-> T5].
    apply check_counts_empty in H4 as [-> T4].
    apply check_metric_empty in H3 as [-> T3].
    apply check_metric_empty in H2 as [-> T2].
    apply missing_keys_empty in H1 as [_ Hk].
    assert (forall key, key ∈ required_keys -> PyVal.contains key s = Ok true) as Hk'
      by exact Hk.
    unfold required_keys in Hk.
    exists text, s, csv. split_and!; try done.
    + apply T2, Hk. repeat constructor.
    + apply T3, Hk. repeat constructor.
    + apply T4, Hk. repeat constructor.
    + apply T5, Hk. repeat constructor.
  - intros (text & s & csv & Ht & Hj & Hk & (v1 & G1 & A1) & (v2 & G2 & A2)
            & (opc & G3 & A3) & G4 & Hc & Hh).
    unfold validate_outputs, bind at 1, exists_, path_exists.
    rewrite bool_decide_eq_true_2 by (rewrite Ht; eauto). cbn [negb].
    unfold bind at 1, try_except, bind at 1.
    rewrite (load_json_eq _ _ _ _ Ht), Hj. cbn [ret].
    assert (missing_keys s required_keys ∅ = Ok ∅) as ->.
    { unfold required_keys in *. cbn [missing_keys].
      rewrite !Hk by (repeat constructor). reflexivity. }
    unfold bind at 1, lift at 1.
    unfold check_metric at 1. rewrite Hk, G1, A1 by (repeat constructor).
    unfold bind at 1, lift at 1.
    unfold check_metric at 1. rewrite Hk, G2, A2 by (repeat constructor).
    unfold bind at 1, lift at 1.
    unfold check_counts at 1. rewrite Hk, G3, A3 by (repeat constructor).
    unfold bind at 1, lift at 1.
    unfold check_top at 1. rewrite Hk, G4 by (repeat constructor).
    cbn [PyVal.ne_str]. rewrite String.eqb_refl. cbn [negb].
    unfold bind at 1, lift at 1.
    unfold bind at 1. rewrite bool_decide_eq_true_2 by (rewrite Hc; eauto).
    cbn [negb]. unfold bind at 1, read_text. rewrite Hc, Hh.
    rewrite String.eqb_refl. reflexivity.
Qed.

Lemma not_in_issue_keys K :
  K ∉ issue_keys ->
  K <> "summary.json" /\
  (forall key, key ∈ required_keys -> K <> "summary.json:" ++ key) /\
  K <> "total_revenue" /\ K <> "average_order_value" /\
  K <> "orders_per_category" /\ K <> "top_category_by_revenue" /\
  K <> "high_value_orders.csv" /\ K <> "high_value_orders.csv:header".
Proof.
  unfold issue_keys. intros H.
  repeat (apply not_elem_of_cons in H as [? H]).
  split_and!; try done.
  intros key Hk. unfold required_keys in Hk.
  repeat (apply elem_of_cons in Hk as [->|Hk]; [done|]).
  by apply elem_of_nil in Hk.
Qed.

(** X8. Whatever the submission wrote, the issues [validate_outputs]
    returns are filed under eleven fixed keys only, and an issue about
    [summary.json] itself, missing or not valid JSON, is the only issue of
    its report. *)
Theorem validate_outputs_issue_keys tol w iss w' :
  validate_outputs json_loads float_of_str py_format tol w = (Ok iss, w') ->
  (forall K, is_Some (iss !! K) -> K ∈ issue_keys) /\
  (is_Some (iss !! "summary.json") ->
   forall K, K <> "summary.json" -> iss !! K = None).
Proof.
  intros Hv.
  assert (forall v : string,
            iss = <["summary.json" := v]> ∅ ->
            (forall K, is_Some (iss !! K) -> K ∈ issue_keys) /\
            (is_Some (iss !! "summary.json") ->
             forall K, K <> "summary.json" -> iss !! K = None)) as Hone.
  { intros v ->. split.
    - intros K [x Hx]. apply lookup_insert_Some in Hx as [[<- _]|[_ Hx]].
      + unfold issue_keys. constructor.
      + by rewrite lookup_empty in Hx.
    - intros _ K HK. by rewrite lookup_insert_ne. }
  destruct (w !! "summary.json") as [text|] eqn:Ht.
  2:{ rewrite (validate_outputs_missing _ _ _ _ _ Ht) in Hv.
      apply ok_pair_inj in Hv as [<- _]. by eapply Hone. }
  destruct (json_loads text) as [msg|s] eqn:Hj.
  { rewrite (validate_outputs_unparsed _ _ _ _ _ _ _ Ht Hj) in Hv.
    apply ok_pair_inj in Hv as [<- _]. by eapply Hone. }
  destruct (validate_outputs_loaded _ _ _ _ _ _ _ _ _ Ht Hj Hv)
    as (i1 & i2 & i3 & i4 & i5 & H1 & H2 & H3 & H4 & H5 & -> & ->).
  apply missing_keys_keeps in H1 as [_ H1].
  apply check_metric_spec in H2 as [T2 _]. apply check_metric_spec in H3 as [T3 _].
  apply check_counts_spec in H4. apply check_top_spec in H5.
  unfold touches_only in *.
  assert (forall K, K ∉ issue_keys -> with_csv_issue w i5 !! K = None) as Hout.
  { intros K HK. apply not_in_issue_keys in HK
      as (_ & K1 & K2 & K3 & K4 & K5 & K6 & K7).
    rewrite with_csv_issue_other by done.
    rewrite H5, H4, T3, T2, H1 by done. apply lookup_empty. }
  split.
  - intros K [x Hx]. destruct (decide (K ∈ issue_keys)) as [|HK]; [done|].
    rewrite (Hout K HK) in Hx. discriminate.
  - intros [x Hx]. exfalso.
    rewrite with_csv_issue_other in Hx by done.
    rewrite H5, H4, T3, T2, H1 in Hx; done.
Qed.

(** X9. A [summary.json] that holds valid JSON which is neither an
    object, a list nor a string (a number, [true], [false] or [null])
    makes [validate_outputs] raise [TypeError]; nothing in [main] catches
    it, so a Python submission whose program writes such a summary gets no
    report. *)
Theorem scalar_summary_raises r w0 src c o e w text s :
  w0 !! "process_orders.py" = Some src ->
  spawn (first_command sys_executable python "100" (clean w0)) (timeout_of r) (clean w0)
    = (Exited c o e, w) ->
  w !! "summary.json" = Some text -> json_loads text = inr s ->
  is_scalar s = true ->
  validate_outputs json_loads float_of_str py_format (tolerances_float r) w
    = (Raise TypeError, w) /\
  exists ex w',
    main sys_executable spawn json_loads float_of_str py_format (Some python) r w0
    = (Raise ex, w').
Proof.
  intros Hsrc Hrun Ht Hj Hs.
  assert (validate_outputs json_loads float_of_str py_format (tolerances_float r) w
          = (Raise TypeError, w)) as Hraise.
  { unfold validate_outputs, bind at 1, exists_, path_exists.
    rewrite bool_decide_eq_true_2 by (rewrite Ht; eauto). cbn [negb].
    unfold bind at 1, try_except, bind at 1.
    rewrite (load_json_eq _ _ _ _ Ht), Hj. cbn [ret].
    unfold bind at 1, lift at 1, required_keys. cbn [missing_keys].
    by destruct s. }
  split; [exact Hraise|].
  destruct (main sys_executable spawn json_loads float_of_str py_format
              (Some python) r w0) as [[[p status]|ex] w'] eqn:Hmain; [exfalso | eauto].
  apply main_inv in Hmain. destruct p as [msg|d].
  { destruct Hmain as [Hd _]. discriminate. }
  destruct Hmain as (o' & lg & mark & w1 & w2 & w3 & w4 & Hd & Hst & Hr & Hv & _).
  cbn in Hd. inversion Hd as [Hl]. rewrite <- Hl in *. clear Hd Hl.
  pose proof (preserves_static (fun w' => w' = w0) python w0 eq_refl) as Hw1.
  rewrite Hst in Hw1. cbn [snd] in Hw1. subst w1.
  unfold try_except in Hr. rewrite run_program_unfold in Hr.
  cbn [entry_point] in Hr. rewrite Hsrc in Hr.
  unfold bind at 1 in Hr. rewrite (run_cmd_exited _ _ _ _ _ _ _ _ Hrun) in Hr.
  cbn [ret] in Hr. apply ok_pair_inj in Hr as [_ <-].
  rewrite Hraise in Hv. discriminate.
Qed.

(** X10. The check of [high_value_orders.csv] reads its first line only
    and ignores surrounding whitespace: once the summary has loaded, the
    issue [high_value_orders.csv:header] is absent exactly when the first
    line, stripped, is the expected header, whatever the lines after it
    hold. *)
Theorem csv_check_reads_header_only tol w text s line c rest iss w' :
  w !! "summary.json" = Some text -> json_loads text = inr s ->
  w !! "high_value_orders.csv" = Some (line ++ String c rest) ->
  one_line line = true -> PyStr.is_newline c = true ->
  validate_outputs json_loads float_of_str py_format tol w = (Ok iss, w') ->
  (iss !! "high_value_orders.csv:header" = None <->
   PyStr.strip line = expected_header) /\
  iss !! "high_value_orders.csv" = None.
Proof.
  intros Ht Hj Hc Hl Hn Hv.
  destruct (validate_outputs_loaded _ _ _ _ _ _ _ _ _ Ht Hj Hv)
    as (i1 & i2 & i3 & i4 & i5 & H1 & H2 & H3 & H4 & H5 & -> & ->).
  apply missing_keys_keeps in H1 as [_ H1].
  apply check_metric_spec in H2 as [T2 _]. apply check_metric_spec in H3 as [T3 _].
  apply check_counts_spec in H4. apply check_top_spec in H5.
  unfold touches_only in *.
  assert (forall K, K = "high_value_orders.csv:header" \/ K = "high_value_orders.csv" ->
            i5 !! K = None) as Hi5.
  { intros K HK. rewrite H5, H4, T3, T2, H1.
    - apply lookup_empty.
    - intros key Hk. unfold required_keys in Hk.
      repeat (apply elem_of_cons in Hk as [->|Hk]; [by destruct HK as [-> | ->]|]).
      by apply elem_of_nil in Hk.
    - by destruct HK as [-> | ->].
    - by destruct HK as [-> | ->].
    - by destruct HK as [-> | ->].
    - by destruct HK as [-> | ->]. }
  unfold with_csv_issue. rewrite Hc. cbn zeta.
  rewrite (readline_first_line _ _ _ Hl Hn), strip_newline.
  destruct (String.eqb (PyStr.strip line) expected_header) eqn:E; cbn [negb].
  - apply String.eqb_eq in E. rewrite !Hi5 by auto. done.
  - apply String.eqb_neq in E. rewrite lookup_insert_eq.
    rewrite lookup_insert_ne by done. rewrite Hi5 by auto. split; [|done].
    split; [discriminate | done].
Qed.

End Validation.

(** ** More on the static checks *)

Local Open Scope list_scope.

Lemma cat_matches r1 r2 l :
  re_matches (Re.Cat r1 r2) l <->
  exists l1 l2, l = l1 ++ l2 /\ re_matches r1 l1 /\ re_matches r2 l2.
Proof.
  split.
  - intros H. inversion H; subst. eauto.
  - intros (l1 & l2 & -> & H1 & H2). by constructor.
Qed.

Lemma alt_matches r1 r2 l :
  re_matches (Re.Alt r1 r2) l <-> re_matches r1 l \/ re_matches r2 l.
Proof.
  split.
  - intros H. inversion H; subst; auto.
  - intros [H|H]; [by apply MAltL | by apply MAltR].
Qed.

Lemma chr_matches c l : re_matches (Re.Chr c) l <-> l = [c].
Proof.
  split.
  - intros H. by inversion H.
  - intros ->. constructor.
Qed.

Lemma eps_matches l : re_matches Re.Eps l <-> l = [].
Proof.
  split.
  - intros H. by inversion H.
  - intros ->. constructor.
Qed.

Lemma word_re_matches word k m :
  re_matches (word_re word k) m <->
  exists m', m = list_ascii_of_string word ++ m' /\ re_matches k m'.
Proof.
  unfold word_re. revert m.
  induction (list_ascii_of_string word) as [|a l IH]; intros m; cbn [fold_right].
  - split; [intros H; by exists m | by intros (m' & -> & H)].
  - rewrite cat_matches. split.
    + intros (l1 & l2 & -> & H1 & H2). apply chr_matches in H1 as ->.
      apply IH in H2 as (m' & -> & H2). by exists m'.
    + intros (m' & -> & H). exists [a], (l ++ m'). split; [done|].
      split; [constructor|]. apply IH. eauto.
Qed.

Lemma star_space_matches l : re_matches (Re.Star Re.Space) l <-> all_space l.
Proof.
  unfold all_space. split.
  - intros H. remember (Re.Star Re.Space) as r eqn:Er.
    induction H; try discriminate.
    + constructor.
    + inversion Er; subst. inversion H; subst. constructor; [done|].
      by apply IHre_matches2.
  - induction 1 as [|c l Hc _ IH]; [constructor|].
    change (c :: l) with ([c] ++ l). constructor; [by constructor | done].
Qed.

Lemma function_name_matches l :
  re_matches
    (Re.Alt (word_re "aggregate" Re.Eps)
       (Re.Alt (word_re "filter_high_value" Re.Eps) (word_re "parse_args" Re.Eps))) l
  <-> exists name, name ∈ python_function_names /\ l = list_ascii_of_string name.
Proof.
  rewrite !alt_matches, !word_re_matches. unfold python_function_names. split.
  - intros [(m' & -> & H)|[(m' & -> & H)|(m' & -> & H)]];
      apply eps_matches in H as ->; rewrite app_nil_r; eexists; (split; [|reflexivity]).
    + repeat constructor.
    + repeat constructor.
    + repeat constructor.
  - intros (name & Hn & ->).
    apply elem_of_cons in Hn as [->|Hn]; [|apply elem_of_cons in Hn as [->|Hn];
      [|apply elem_of_cons in Hn as [->|Hn]; [|by apply elem_of_nil in Hn]]].
    + left. exists []. rewrite app_nil_r. split; [done | constructor].
    + right; left. exists []. rewrite app_nil_r. split; [done | constructor].
    + right; right. exists []. rewrite app_nil_r. split; [done | constructor].
Qed.

Lemma functions_regex_matches m :
  re_matches functions_regex m <->
  exists ws name,
    ws <> [] /\ all_space ws /\ name ∈ python_function_names /\
    m = list_ascii_of_string "def" ++ ws ++ list_ascii_of_string name ++ ["("%char].
Proof.
  unfold functions_regex. rewrite word_re_matches. split.
  - intros (m1 & -> & H). apply cat_matches in H as (sp & m2 & -> & Hsp & H).
    apply cat_matches in Hsp as (s1 & s2 & -> & Hs1 & Hs2).
    inversion Hs1 as [| |c Hc| | | | |]; subst. apply star_space_matches in Hs2.
    apply cat_matches in H as (nm & m3 & -> & Hnm & H).
    apply function_name_matches in Hnm as (name & Hname & ->).
    apply cat_matches in H as (p & e & -> & Hp & He).
    apply chr_matches in Hp as ->. apply eps_matches in He as ->.
    exists ([c] ++ s2), name. split_and!; [done| |done|].
    + by constructor.
    + by rewrite app_nil_r.
  - intros (ws & name & Hne & Hws & Hname & ->).
    exists (ws ++ list_ascii_of_string name ++ ["("%char]). split; [done|].
    apply cat_matches. exists ws, (list_ascii_of_string name ++ ["("%char]).
    split; [done|]. split.
    + destruct ws as [|c ws]; [done|]. inversion Hws; subst.
      change (c :: ws) with ([c] ++ ws). constructor; [by constructor|].
      by apply star_space_matches.
    + apply cat_matches. exists (list_ascii_of_string name), ["("%char].
      split; [done|]. split.
      * apply function_name_matches. eauto.
      * change ["("%char] with (["("%char] ++ []). constructor; constructor.
Qed.

Lemma functions_pattern_compiled :
  Re.compile "def\s+(aggregate|filter_high_value|parse_args)\(" = inr functions_regex.
Proof. reflexivity. Qed.

Lemma control_flow_pattern_compiled :
  Re.compile "for\s|while\s|if\s" = inr control_flow_regex.
Proof. reflexivity. Qed.

Lemma not_static_name k :
  k ∉ static_names -> k <> "functions" /\ k <> "control_flow" /\ k <> "oop".
Proof.
  unfold static_names. intros H. repeat (apply not_elem_of_cons in H as [? H]). done.
Qed.

(** The value of [static_checks_python], predicate by predicate. *)
Lemma static_checks_python_lookup w :
  exists ok,
    static_checks_python w = (Ok ok, w) /\
    ok !! "functions" =
      Some (match w !! "process_orders.py" with
            | Some s => Re.search_from functions_regex (list_ascii_of_string s)
            | None => false
            end) /\
    ok !! "control_flow" =
      Some (match w !! "process_orders.py" with
            | Some s => Re.search_from control_flow_regex (list_ascii_of_string s)
            | None => false
            end) /\
    ok !! "oop" =
      Some (match w !! "models.py" with
            | Some m => PyStr.contains "class Order" m && PyStr.contains "def total" m
            | None => false
            end) /\
    forall k, k ∉ static_names -> ok !! k = None.
Proof.
  unfold static_checks_python, bind at 1, try_except at 1.
  unfold bind at 1, read_text at 1.
  destruct (w !! "process_orders.py") as [s|] eqn:E1.
  - rewrite (search_compiled _ _ _ functions_pattern_compiled),
      (search_compiled _ _ _ control_flow_pattern_compiled).
    cbn [lift_re bind ret is_FileNotFoundError].
    unfold bind at 1, try_except at 1. unfold bind at 1, read_text.
    destruct (w !! "models.py") as [m|] eqn:E2;
      cbn [ret bind is_FileNotFoundError]; eexists; (split; [reflexivity|]);
      split_and!; try (intros k (? & ? & ?)%not_static_name); lookup_static.
  - cbn [is_FileNotFoundError ret].
    unfold bind at 1, try_except at 1. unfold bind at 1, read_text.
    destruct (w !! "models.py") as [m|] eqn:E2;
      cbn [ret bind is_FileNotFoundError]; eexists; (split; [reflexivity|]);
      split_and!; try (intros k (? & ? & ?)%not_static_name); lookup_static.
Qed.

Lemma static_checks_python_returns w :
  exists ok, static_checks_python w = (Ok ok, w).
Proof. destruct (static_checks_python_lookup w) as (ok & H & _). eauto. Qed.


(** X16. With [process_orders.py] present, [functions] is true exactly
    when its text contains [def], at least one whitespace character, one
    of the names [aggregate], [filter_high_value] and [parse_args], and an
    opening parenthesis, in a row. *)
Theorem python_functions_check w s :
  w !! "process_orders.py" = Some s ->
  static_value (static_checks_python w) "functions" = Some true <->
  exists pre ws name post,
    ws <> [] /\ all_space ws /\ name ∈ python_function_names /\
    list_ascii_of_string s
    = pre ++ (list_ascii_of_string "def" ++ ws ++ list_ascii_of_string name ++ ["("%char])
          ++ post.
Proof.
  intros Hs. destruct (static_checks_python_lookup w) as (ok & H & Hf & _).
  unfold static_value. rewrite H. cbn [fst]. rewrite Hf, Hs.
  assert (forall b : bool, Some b = Some true <-> b = true) as ->
    by (intros b; split; [by intros [= ->] | by intros ->]).
  rewrite search_from_spec. split.
  - intros (pre & m & post & E & Hm).
    apply functions_regex_matches in Hm as (ws & name & Hne & Hws & Hname & ->).
    by exists pre, ws, name, post.
  - intros (pre & ws & name & post & Hne & Hws & Hname & E).
    exists pre, (list_ascii_of_string "def" ++ ws ++ list_ascii_of_string name ++ ["("%char]),
      post.
    split; [done|]. apply functions_regex_matches. by exists ws, name.
Qed.

(** X17. The [oop] predicate is a test for two substrings: for Python it
    is true exactly when [models.py] is present and its text contains
    [class Order] somewhere and [def total] somewhere; for Java, when
    [static_checks_java] returns, exactly when [Order.java] is present and
    contains [class Order] and [total(]. *)
Theorem oop_check_is_substring_test w :
  (static_value (static_checks_python w) "oop" = Some true <->
   exists m pre1 post1 pre2 post2,
     w !! "models.py" = Some m /\
     list_ascii_of_string m = pre1 ++ list_ascii_of_string "class Order" ++ post1 /\
     list_ascii_of_string m = pre2 ++ list_ascii_of_string "def total" ++ post2) /\
  (forall ok w',
     static_checks_java w = (Ok ok, w') ->
     ok !! "oop" = Some true <->
     exists m pre1 post1 pre2 post2,
       w !! "Order.java" = Some m /\
       list_ascii_of_string m = pre1 ++ list_ascii_of_string "class Order" ++ post1 /\
       list_ascii_of_string m = pre2 ++ list_ascii_of_string "total(" ++ post2).
Proof.
  assert (forall (o : option string) (a b : string),
    Some (match o with
          | Some m => PyStr.contains a m && PyStr.contains b m
          | None => false
          end) = Some true <->
    exists m pre1 post1 pre2 post2,
      o = Some m /\
      list_ascii_of_string m = pre1 ++ list_ascii_of_string a ++ post1 /\
      list_ascii_of_string m = pre2 ++ list_ascii_of_string b ++ post2) as Hsub.
  { intros o a b. split.
    - destruct o as [m|]; [|discriminate]. intros [= Hb].
      apply andb_true_iff in Hb as [(pre1 & post1 & E1)%contains_spec
                                      (pre2 & post2 & E2)%contains_spec].
      by exists m, pre1, post1, pre2, post2.
    - intros (m & pre1 & post1 & pre2 & post2 & -> & E1 & E2). f_equal.
      apply andb_true_iff. split; apply contains_spec; eauto. }
  split.
  - destruct (static_checks_python_lookup w) as (ok & H & _ & _ & Ho & _).
    unfold static_value. rewrite H. cbn [fst]. rewrite Ho. apply Hsub.
  - intros ok w'. unfold static_checks_java, bind at 1, try_except at 1.
    unfold bind at 1, read_text at 1.
    destruct (w !! "OrderProcessor.java") as [s|] eqn:E1.
    { unfold Re.search. rewrite java_control_flow_pattern_error. discriminate. }
    cbn [is_FileNotFoundError ret].
    unfold bind at 1, try_except at 1. unfold bind at 1, read_text.
    destruct (w !! "Order.java") as [m|] eqn:E2;
      cbn [ret bind is_FileNotFoundError]; intros [= <- <-];
      rewrite <- (Hsub _ "class Order" "total(")%string; lookup_static.
Qed.

Lemma static_checks_java_present w s :
  w !! "OrderProcessor.java" = Some s ->
  static_checks_java w = (Raise (ReError Re.unterminated_subpattern), w).
Proof.
  intros Hs. unfold static_checks_java, bind at 1, try_except at 1.
  unfold bind at 1, read_text. rewrite Hs.
  unfold Re.search. rewrite java_control_flow_pattern_error. reflexivity.
Qed.

Lemma static_checks_java_absent w :
  w !! "OrderProcessor.java" = None ->
  exists ok, static_checks_java w = (Ok ok, w) /\ ok !! "control_flow" = Some false.
Proof.
  intros E1. unfold static_checks_java, bind at 1, try_except at 1.
  unfold bind at 1, read_text at 1. rewrite E1.
  cbn [is_FileNotFoundError ret].
  unfold bind at 1, try_except at 1. unfold bind at 1, read_text.
  destruct (w !! "Order.java") as [m|] eqn:E2;
    cbn [ret bind is_FileNotFoundError]; eexists; (split; [reflexivity|]);
    lookup_static.
Qed.

Local Open Scope string_scope.
Local Open Scope Z_scope.

(** ** More on the report *)

Lemma substring_all s : forall n,
  (String.length s <= n)%nat -> String.substring 0 n s = s.
Proof.
  induction s as [|c s IH]; intros n Hn.
  - by destruct n.
  - destruct n as [|n]; cbn in *; [lia|]. rewrite IH; [done | lia].
Qed.

Lemma substring_length_le s : forall k n,
  (String.length (String.substring k n s) <= n)%nat.
Proof.
  induction s as [|c s IH]; intros k n.
  - destruct k, n; cbn; lia.
  - destruct k as [|k].
    + destruct n as [|n]; cbn; [lia|]. specialize (IH 0%nat n). lia.
    + cbn. apply IH.
Qed.

Lemma substring_suffix s : forall k n,
  (k + n = String.length s)%nat -> exists pre, s = pre ++ String.substring k n s.
Proof.
  induction s as [|c s IH]; intros k n Hk.
  - exists "". cbn in Hk. by destruct k, n.
  - destruct k as [|k].
    + exists "". rewrite substring_all; [done | cbn in *; lia].
    + cbn in Hk. destruct (IH k n ltac:(lia)) as [pre Hpre].
      exists (String c pre). cbn [String.substring]. rewrite append_cons.
      by rewrite <- Hpre.
Qed.

Lemma tail_length n s : (String.length (PyStr.tail n s) <= n)%nat.
Proof. apply substring_length_le. Qed.

Lemma tail_short n s : (String.length s <= n)%nat -> PyStr.tail n s = s.
Proof.
  intros H. unfold PyStr.tail. replace (String.length s - n)%nat with 0%nat by lia.
  by apply substring_all.
Qed.

Lemma tail_suffix n s : exists pre, s = pre ++ PyStr.tail n s.
Proof.
  destruct (Nat.le_gt_cases (String.length s) n) as [H|H].
  - exists "". by rewrite tail_short.
  - unfold PyStr.tail. apply substring_suffix. lia.
Qed.

Section Report.

Variable sys_executable : string.
Variable spawn : list string -> Z -> dir -> outcome * dir.
Variable json_loads : string -> string + json.
Variable float_of_str : string -> option spec_float.
Variable py_format : json -> string.

(** The program run behind the [run_logs] of a report. *)
Lemma main_run_logs args r w d status w' :
  main sys_executable spawn json_loads float_of_str py_format args r w
    = (Ok (Report d, status), w') ->
  exists static w1 ok out w2,
    static_checks (lang d) w = (Ok static, w1) /\
    try_except (run_program sys_executable spawn (lang d) (timeout_of r) "100")
      is_CheckError (fun e => ret (false, exn_str e)) w1 = (Ok (ok, out), w2) /\
    run_logs d = PyStr.tail 4000 out.
Proof.
  unfold main. fold (timeout_of r). intros H.
  apply bind_ok in H as (dl & w0 & Hd & H).
  pose proof (detect_dir _ _ _ _ Hd) as <-.
  destruct dl as [l|]; [|by apply ret_ok in H as [H <-]; inversion H].
  fold (static_checks l) in H.
  apply bind_ok in H as (static & w1 & Hs & H).
  apply bind_ok in H as (t3 & w2 & H3 & H).
  pose proof (preserves_record_static (fun w' => w' = w1) (weights r) static
                ["functions"; "control_flow"; "oop"] (0, ∅) w1 eq_refl) as Hw2.
  rewrite H3 in Hw2. cbn [snd] in Hw2. subst w2.
  apply bind_ok in H as ([ok lg] & w3 & Hrun & H).
  apply bind_ok in H as (t4 & w4 & H4 & H).
  apply bind_ok in H as (iss & w5 & Hv & H).
  apply bind_ok in H as (t5 & w6 & H5 & H).
  apply bind_ok in H as (eh & w7 & Heh & H).
  apply bind_ok in H as (t6 & w8 & H6 & H).
  apply bind_ok in H as ([ut utl] & w9 & Hut & H).
  apply bind_ok in H as (t7 & w10 & H7 & H).
  apply bind_ok in H as (mark & w11 & Hmark & H).
  apply ret_ok in H as [H ->].
  injection H as <- <-. cbn [lang run_logs]. eauto 10.
Qed.

Lemma report_entry args r w d status w' :
  main sys_executable spawn json_loads float_of_str py_format args r w
    = (Ok (Report d, status), w') ->
  exists o, forall k,
    checks d !! k = (if decide (k ∈ check_names) then Some (entry_of (weights r) o k)
                     else None).
Proof.
  intros Hmain. apply main_report in Hmain
    as (o & lg & mark & w1 & w2 & w3 & w4 & _ & _ & _ & _ & _ & _ & _ & Ht & _).
  exists o. intros k. pose proof (f_equal snd Ht) as Hc. cbn [snd] in Hc.
  rewrite Hc, tally_from_lookup. by destruct (decide (k ∈ check_names)).
Qed.

(** X11. A report has an entry for each of the seven checks and for
    nothing else. In each entry [max] is the rubric's weight of the
    check and [points] is [max] when the check passed and 0 otherwise;
    only [analytics_correctness] carries [issues] and only [unit_tests]
    carries [logs]. *)
Theorem report_entries args r w d status w' :
  main sys_executable spawn json_loads float_of_str py_format args r w
    = (Ok (Report d, status), w') ->
  forall k,
    match checks d !! k with
    | Some c =>
        k ∈ check_names /\
        weights r !! k = Some (max_points c) /\
        points c = (if pass c then max_points c else 0) /\
        (is_Some (issues c) <-> k = "analytics_correctness") /\
        (is_Some (logs c) <-> k = "unit_tests")
    | None => k ∉ check_names
    end.
Proof.
  intros Hmain. destruct (report_entry _ _ _ _ _ _ Hmain) as [o Ho].
  apply main_report in Hmain
    as (_ & _ & _ & _ & _ & _ & _ & _ & _ & _ & _ & _ & _ & Hw & _).
  intros k. rewrite Ho. destruct (decide (k ∈ check_names)) as [Hk|Hk]; [|done].
  split; [done|]. split.
  { destruct (Hw k Hk) as [v Hv]. unfold entry_of, entry, weight_of. cbn.
    by rewrite Hv. }
  split; [reflexivity|].
  unfold check_names in Hk.
  repeat (apply elem_of_cons in Hk as [->|Hk];
          [cbn; split; (split; [by intros [? ?] | done || eauto])|]).
  by apply elem_of_nil in Hk.
Qed.

(** X12. The logs of a report are cut to their last 4000 characters:
    [run_logs] is a suffix, of at most 4000 characters, of the output the
    program run returned (or of the message of its [CheckError]), and is
    all of it when that has at most 4000 characters; the [logs] of
    [unit_tests] have at most 4000 characters too. *)
Theorem logs_are_truncated args r w d status w' :
  main sys_executable spawn json_loads float_of_str py_format args r w
    = (Ok (Report d, status), w') ->
  (exists ok out w1 w2 pre,
     try_except (run_program sys_executable spawn (lang d) (timeout_of r) "100")
       is_CheckError (fun e => ret (false, exn_str e)) w1 = (Ok (ok, out), w2) /\
     out = pre ++ run_logs d /\
     ((String.length out <= 4000)%nat -> run_logs d = out)) /\
  (String.length (run_logs d) <= 4000)%nat /\
  (forall c lg, checks d !! "unit_tests" = Some c -> logs c = Some lg ->
     (String.length lg <= 4000)%nat).
Proof.
  intros Hmain.
  destruct (main_run_logs _ _ _ _ _ _ Hmain) as (st & w1 & ok & out & w2 & _ & Hr & Hl).
  destruct (report_entry _ _ _ _ _ _ Hmain) as [o Ho].
  split_and!.
  - destruct (tail_suffix 4000 out) as [pre Hpre].
    exists ok, out, w1, w2, pre. rewrite Hl. split_and!; [done|done|].
    apply tail_short.
  - rewrite Hl. apply tail_length.
  - intros c lg Hc Hlg. rewrite Ho in Hc. cbn in Hc. inversion Hc; subst c.
    cbn in Hlg. inversion Hlg. apply tail_length.
Qed.

(** The report of a run whose entry point is absent. *)
Lemma missing_entry_point_inv args r w d status w' :
  main sys_executable spawn json_loads float_of_str py_format args r w
    = (Ok (Report d, status), w') ->
  w !! entry_point (lang d) = None ->
  run_logs d = entry_point (lang d) ++ " not found" /\
  recorded_pass d "file_io" = false /\
  exists c,
    checks d !! "analytics_correctness" = Some c /\ pass c = false /\
    issues c = Some (<["summary.json" := "missing"]> ∅).
Proof.
  intros Hmain Hentry.
  destruct (main_run_logs _ _ _ _ _ _ Hmain) as (st & w1 & ok & out & w2 & Hs & Hr & Hl).
  destruct (report_entry _ _ _ _ _ _ Hmain) as [o Ho].
  apply main_report in Hmain
    as (o' & lg & mark & w1' & w2' & w3 & w4 & _ & Hs' & Hr' & Hv & _ & _ & _ & Ht & _).
  rewrite Hs in Hs'. apply ok_pair_inj in Hs' as [_ <-].
  rewrite Hr in Hr'. apply ok_pair_inj in Hr' as [Ho' <-].
  pose proof (preserves_static (fun w' => w' = w) (lang d) w eq_refl) as Hw1.
  rewrite Hs in Hw1. cbn [snd] in Hw1. subst w1.
  unfold try_except in Hr. rewrite run_program_unfold, Hentry in Hr.
  cbn [is_CheckError ret exn_str] in Hr. apply ok_pair_inj in Hr as [Hr <-].
  injection Hr as <- <-. injection Ho' as Hio.
  rewrite validate_outputs_missing in Hv
    by (rewrite clean_lookup; by rewrite decide_True by auto).
  apply ok_pair_inj in Hv as [Hiss _].
  pose proof (f_equal snd Ht) as Hc. cbn [snd] in Hc.
  split_and!.
  - rewrite Hl. apply tail_short. destruct (lang d); vm_compute; lia.
  - unfold recorded_pass. rewrite Hc, tally_from_lookup.
    rewrite decide_True by (unfold check_names; repeat constructor).
    cbn. by rewrite <- Hio.
  - eexists. rewrite Hc, tally_from_lookup.
    rewrite decide_True by (unfold check_names; repeat constructor).
    split; [reflexivity|]. cbn. rewrite <- Hiss. split; [|done].
    apply bool_decide_eq_false. rewrite map_size_insert_None by apply lookup_empty.
    lia.
Qed.

(** X13. When the entry point of the graded language is absent, a report
    records [file_io] as failed with the log [<entry point> not found],
    and [analytics_correctness] as failed with the single issue that
    [summary.json] is missing, also when the directory held a
    [summary.json] from an earlier run: outputs that the graded run did
    not produce never count. *)
Theorem missing_entry_point_report args r w d status w' :
  main sys_executable spawn json_loads float_of_str py_format args r w
    = (Ok (Report d, status), w') ->
  w !! entry_point (lang d) = None ->
  run_logs d = entry_point (lang d) ++ " not found" /\
  recorded_pass d "file_io" = false /\
  exists c,
    checks d !! "analytics_correctness" = Some c /\ pass c = false /\
    issues c = Some (<["summary.json" := "missing"]> ∅).
Proof. apply missing_entry_point_inv. Qed.

(** X22. A report for Java never records a program run: whenever [main]
    prints a report for Java, [OrderProcessor.java] was absent (with the
    file present the static checks raise), so [file_io] is failed with the
    log [OrderProcessor.java not found], and [control_flow] and
    [analytics_correctness] are failed too. *)
Theorem java_report_never_ran args r w d status w' :
  main sys_executable spawn json_loads float_of_str py_format args r w
    = (Ok (Report d, status), w') ->
  lang d = java ->
  w !! "OrderProcessor.java" = None /\
  run_logs d = "OrderProcessor.java not found" /\
  recorded_pass d "file_io" = false /\
  recorded_pass d "control_flow" = false /\
  recorded_pass d "analytics_correctness" = false.
Proof.
  intros Hmain Hlang.
  pose proof (missing_entry_point_inv _ _ _ _ _ _ Hmain) as Hinv.
  destruct (report_entry _ _ _ _ _ _ Hmain) as [o' Ho'].
  apply main_report in Hmain
    as (o & lg & mark & w1 & w2 & w3 & w4 & _ & Hs & _ & _ & _ & _ & _ & Ht & _).
  rewrite Hlang in Hs, Hinv. cbn [static_checks entry_point] in Hs, Hinv.
  destruct (w !! "OrderProcessor.java") as [s|] eqn:E.
  { rewrite (static_checks_java_present _ _ E) in Hs. discriminate. }
  destruct (Hinv eq_refl) as (Hl & Hio & c & Hc & Hp & _).
  split; [done|]. split; [exact Hl|]. split; [exact Hio|].
  split.
  - destruct (static_checks_java_absent w E) as (ok & Hok & Hcf).
    rewrite Hok in Hs. apply ok_pair_inj in Hs as [Hs _].
    pose proof (f_equal snd Ht) as Hck. cbn [snd] in Hck.
    unfold recorded_pass. rewrite Hck, tally_from_lookup.
    rewrite decide_True by (unfold check_names; repeat constructor).
    cbn. unfold static_get. by rewrite <- Hs, Hcf.
  - unfold recorded_pass. by rewrite Hc.
Qed.

(** X14. A rubric that lacks the weight of one of the seven checks gets
    no report: [main] prints none for any submission, and when the weight
    of [functions] is the missing one a Python submission makes it raise
    [KeyError] before any program is run. *)
Theorem missing_weight_no_report args r w :
  (forall k d status w',
     k ∈ check_names -> weights r !! k = None ->
     main sys_executable spawn json_loads float_of_str py_format args r w
       <> (Ok (Report d, status), w')) /\
  (weights r !! "functions" = None ->
   main sys_executable spawn json_loads float_of_str py_format (Some python) r w
     = (Raise (KeyError "functions"), w)).
Proof.
  split.
  - intros k d status w' Hk Hnone Hmain. apply main_report in Hmain
      as (_ & _ & _ & _ & _ & _ & _ & _ & _ & _ & _ & _ & _ & Hw & _).
    destruct (Hw k Hk) as [v Hv]. congruence.
  - intros Hnone. unfold main, bind at 1. cbn [detect ret].
    destruct (static_checks_python_returns w) as [ok Hs].
    unfold bind at 1. rewrite Hs. unfold bind at 1. cbn [record_static].
    unfold bind at 1, record_check, bind at 1.
    destruct (static_get ok "functions"); unfold weight; rewrite Hnone;
      reflexivity.
Qed.

End Report.

(** ** The pass mark and the tolerance *)

Lemma all_up_to_spec f n :
  all_up_to f n = true -> forall k, (k <= n)%nat -> f (Z.of_nat k) = true.
Proof.
  induction n as [|n IH]; cbn [all_up_to]; intros H k Hk.
  - by replace k with 0%nat by lia.
  - apply andb_true_iff in H as [H1 H2].
    destruct (decide (k = S n)) as [->|Hne]; [done|]. apply IH; [done | lia].
Qed.

Lemma pass_mark_close_1000 : all_up_to pass_mark_close 1000 = true.
Proof. vm_compute. reflexivity. Qed.

(** X18. For every total from 0 to 1000, [int(0.7 * total)] is the floor
    of seven tenths of the total or one less than it, and it is the floor
    whenever the total is not a multiple of 10. *)
Theorem pass_mark_within_one t :
  0 <= t <= 1000 ->
  exists m,
    pass_mark t = Ok m /\
    7 * t / 10 - 1 <= m <= 7 * t / 10 /\
    (t mod 10 <> 0 -> m = 7 * t / 10).
Proof.
  intros Ht.
  pose proof (all_up_to_spec _ _ pass_mark_close_1000 (Z.to_nat t) ltac:(lia)) as H.
  rewrite Z2Nat.id in H by lia. unfold pass_mark_close in H.
  destruct (pass_mark t) as [m|e]; [|discriminate]. exists m. split; [done|].
  apply andb_true_iff in H as [H H3]. apply andb_true_iff in H as [H1 H2].
  split; [lia|]. intros Hmod.
  apply orb_true_iff in H3 as [H3|H3]; lia.
Qed.

Section Tolerance.

Variable float_of_str : string -> option spec_float.

Lemma leb_abs_bad_tolerance x tol :
  nonneg_tolerance tol = false -> PyFloat.leb (PyFloat.abs x) tol = false.
Proof.
  destruct tol as [| [] | | [] ? ?]; try discriminate; intros _;
    by destruct x as [| | | ? ? ?].
Qed.

(** X19. With a tolerance that is negative or not a number, [approx]
    accepts no pair of values: whenever it returns, it returns
    [False]. *)
Theorem approx_needs_nonneg_tolerance a b tol ok :
  nonneg_tolerance tol = false ->
  approx float_of_str a b tol = Ok ok -> ok = false.
Proof.
  intros Htol. unfold approx.
  destruct (py_float float_of_str a) as [fa|e]; [|discriminate].
  destruct (py_float float_of_str b) as [fb|e]; [|discriminate].
  intros [= <-]. by apply leb_abs_bad_tolerance.
Qed.

(** X20. A value is within every non-negative tolerance of itself when
    it converts to a finite float; an infinity or a NaN is not within any
    tolerance of itself. *)
Theorem approx_of_equal_values v f tol :
  py_float float_of_str v = Ok f ->
  approx float_of_str v v tol = Ok (finite_float f && nonneg_tolerance tol).
Proof.
  intros Hf. unfold approx. rewrite Hf. f_equal.
  unfold PyFloat.leb, PyFloat.abs, PyFloat.sub.
  destruct f as [s| s | |s m e].
  - destruct s; by destruct tol as [| [] | | [] ? ?].
  - by destruct s.
  - reflexivity.
  - cbn [SFsub finite_float andb]. rewrite Z.sub_diag. cbn [binary_normalize SFabs].
    by destruct tol as [| [] | | [] ? ?].
Qed.

Lemma abs_round s m e :
  SFabs (binary_round PyFloat.prec PyFloat.emax s m e)
  = SFabs (binary_round PyFloat.prec PyFloat.emax false m e).
Proof.
  unfold binary_round, binary_round_aux.
  destruct (shl_align _ _ _) as [mz ez].
  destruct (shr_fexp _ _ _ _ _) as [mrs e1].
  destruct (shr_fexp _ _ _ _ _) as [mrs2 e2].
  destruct (shr_m mrs2); [reflexivity | | reflexivity].
  by destruct (Z.leb e2 _).
Qed.

Lemma abs_normalize_opp z e :
  SFabs (binary_normalize PyFloat.prec PyFloat.emax (- z) e false)
  = SFabs (binary_normalize PyFloat.prec PyFloat.emax z e false).
Proof.
  destruct z as [|p|p]; cbn [Z.opp binary_normalize]; [reflexivity| |].
  - apply abs_round.
  - symmetry. apply abs_round.
Qed.

Lemma abs_sub_comm x y :
  PyFloat.abs (PyFloat.sub x y) = PyFloat.abs (PyFloat.sub y x).
Proof.
  unfold PyFloat.abs, PyFloat.sub.
  destruct x as [sx|sx| |sx mx ex], y as [sy|sy| |sy my ey];
    try reflexivity; try (by destruct sx, sy).
  cbn [SFsub]. rewrite (Z.min_comm ey ex).
  set (a := cond_Zopp sx _). set (b := cond_Zopp sy _).
  replace (b - a) with (- (a - b)) by lia. symmetry. apply abs_normalize_opp.
Qed.

(** X23. [approx] does not depend on the order of the two values it
    compares: when both convert to floats, [approx(a, b, tol)] and
    [approx(b, a, tol)] are the same. *)
Theorem approx_symmetric a b tol fa fb :
  py_float float_of_str a = Ok fa -> py_float float_of_str b = Ok fb ->
  approx float_of_str a b tol = approx float_of_str b a tol.
Proof.
  intros Ha Hb. unfold approx. rewrite Ha, Hb. by rewrite abs_sub_comm.
Qed.

End Tolerance.

(** ** The further statements at the example submissions *)

Lemma main_keeps_witness :
  snd (main interpreter good_program load_summary no_float plain_format
            None rubric_100 python_submission) !! "models.py"
  = Some models_py.
Proof.
  apply (main_keeps_what_children_keep interpreter good_program load_summary
           no_float plain_format (fun w => w !! "models.py" = Some models_py)).
  - intros cmd t w H. unfold good_program.
    destruct (has_arg "nope.csv" cmd); [exact H|].
    destruct (has_arg "--threshold" cmd); [|exact H].
    cbn [snd]. rewrite lookup_insert_ne by done. rewrite lookup_insert_ne by done.
    exact H.
  - intros w H. rewrite lookup_delete_ne by done. exact H.
  - intros w H. rewrite lookup_delete_ne by done. exact H.
  - reflexivity.
Defined.

Lemma unit_tests_not_required_witness :
  run_unit_tests interpreter always_hang python 20 python_submission
  = (Ok (true, ""), python_submission).
Proof.
  apply (unit_tests_not_required interpreter always_hang python 20 python_submission).
  - intros _. reflexivity.
  - intros H. discriminate H.
Defined.


Lemma python_unit_test_timeout_witness :
  exists e w',
    main interpreter hangs_in_unit_tests load_summary no_float plain_format
         (Some python) rubric_100 python_no_models = (Raise e, w').
Proof.
  apply (python_unit_test_timeout_escapes interpreter hangs_in_unit_tests load_summary
           no_float plain_format rubric_100 python_no_models).
  - exists "". reflexivity.
  - intros cmd t w H. unfold hangs_in_unit_tests, good_program.
    destruct (has_arg "unittest" cmd); [exact H|].
    destruct (has_arg "nope.csv" cmd); [exact H|].
    destruct (has_arg "--threshold" cmd); [|exact H].
    cbn [snd]. rewrite lookup_insert_ne by done. rewrite lookup_insert_ne by done.
    exact H.
  - intros t w0. reflexivity.
Defined.

Lemma validate_outputs_issue_keys_witness :
  (forall K,
     is_Some ((<["summary.json" := "missing"]> ∅ : gmap string string) !! K) ->
     K ∈ issue_keys) /\
  (is_Some ((<["summary.json" := "missing"]> ∅ : gmap string string) !! "summary.json") ->
   forall K, K <> "summary.json" ->
     (<["summary.json" := "missing"]> ∅ : gmap string string) !! K = None).
Proof.
  apply (validate_outputs_issue_keys load_summary no_float plain_format tol_0_01 ∅
           (<["summary.json" := "missing"]> ∅) ∅).
  apply validate_outputs_missing. reflexivity.
Defined.

Lemma scalar_summary_witness :
  validate_outputs loads_number no_float plain_format (tolerances_float rubric_100)
    (<["summary.json" := "5"]> (clean python_submission))
  = (Raise TypeError, <["summary.json" := "5"]> (clean python_submission)) /\
  exists ex w',
    main interpreter writes_scalar_summary loads_number no_float plain_format
         (Some python) rubric_100 python_submission = (Raise ex, w').
Proof.
  apply (scalar_summary_raises interpreter writes_scalar_summary loads_number no_float
           plain_format rubric_100 python_submission process_orders_py 0 "" ""
           (<["summary.json" := "5"]> (clean python_submission)) "5" (JInt 5)).
  - reflexivity.
  - reflexivity.
  - apply lookup_insert_eq.
  - reflexivity.
  - reflexivity.
Defined.

Lemma good_outputs_validate :
  validate_outputs load_summary no_float plain_format tol_0_01 good_outputs
  = (Ok ∅, good_outputs).
Proof.
  pose proof (validate_outputs_dir load_summary no_float plain_format tol_0_01
                good_outputs) as Hd.
  destruct (validate_outputs load_summary no_float plain_format tol_0_01 good_outputs)
    as [r w'] eqn:E.
  cbn [snd] in Hd. subst w'. f_equal.
  change r with (fst (r, good_outputs)). rewrite <- E. vm_compute. reflexivity.
Qed.

Lemma csv_check_witness :
  ((∅ : gmap string string) !! "high_value_orders.csv:header" = None <->
   PyStr.strip expected_header = expected_header) /\
  (∅ : gmap string string) !! "high_value_orders.csv" = None.
Proof.
  apply (csv_check_reads_header_only load_summary no_float plain_format tol_0_01
           good_outputs summary_text good_summary expected_header (ascii_of_nat 10)
           "1001,C001,Electronics,199.99,1,2024-01-05T10:00:00" ∅ good_outputs).
  - reflexivity.
  - reflexivity.
  - reflexivity.
  - reflexivity.
  - reflexivity.
  - apply good_outputs_validate.
Defined.

Lemma report_entries_witness :
  exists d status w',
    main interpreter good_program load_summary no_float plain_format
         None rubric_100 python_submission = (Ok (Report d, status), w') /\
    forall k,
      match checks d !! k with
      | Some c =>
          k ∈ check_names /\
          weights rubric_100 !! k = Some (max_points c) /\
          points c = (if pass c then max_points c else 0) /\
          (is_Some (issues c) <-> k = "analytics_correctness") /\
          (is_Some (logs c) <-> k = "unit_tests")
      | None => k ∉ check_names
      end.
Proof.
  destruct (report_summary_inv _ _ _ _ _ _ _ good_python_run)
    as (d & w' & Hrun & _).
  exists d, 0, w'. split; [exact Hrun|].
  exact (report_entries _ _ _ _ _ _ _ _ _ _ _ Hrun).
Defined.

Lemma logs_are_truncated_witness :
  exists d status w',
    main interpreter good_program load_summary no_float plain_format
         None rubric_100 python_submission = (Ok (Report d, status), w') /\
    (String.length (run_logs d) <= 4000)%nat.
Proof.
  destruct (report_summary_inv _ _ _ _ _ _ _ good_python_run)
    as (d & w' & Hrun & _).
  exists d, 0, w'. split; [exact Hrun|].
  exact (proj1 (proj2 (logs_are_truncated _ _ _ _ _ _ _ _ _ _ _ Hrun))).
Defined.

Lemma stale_outputs_run :
  report_summary
    (main interpreter good_program load_summary no_float plain_format
          (Some python) rubric_100 stale_outputs)
  = Some (python, 20, 100, false, 1, [false; false; false; false; false; true; true]).
Proof. vm_compute. reflexivity. Qed.

Lemma missing_entry_point_witness :
  exists d status w',
    main interpreter good_program load_summary no_float plain_format
         (Some python) rubric_100 stale_outputs = (Ok (Report d, status), w') /\
    run_logs d = "process_orders.py not found" /\
    recorded_pass d "file_io" = false /\
    exists c,
      checks d !! "analytics_correctness" = Some c /\ pass c = false /\
      issues c = Some (<["summary.json" := "missing"]> ∅).
Proof.
  destruct (report_summary_inv _ _ _ _ _ _ _ stale_outputs_run)
    as (d & w' & Hrun & Hlang & _).
  exists d, 1, w'. split; [exact Hrun|].
  pose proof (missing_entry_point_report _ _ _ _ _ _ _ _ _ _ _ Hrun) as H.
  rewrite Hlang in H. apply H. reflexivity.
Defined.

Lemma python_functions_check_witness :
  static_value (static_checks_python python_submission) "functions" = Some true <->
  exists pre ws name post,
    ws <> [] /\ all_space ws /\ name ∈ python_function_names /\
    list_ascii_of_string process_orders_py
    = (pre ++ (list_ascii_of_string "def" ++ ws ++ list_ascii_of_string name
               ++ ["("%char]) ++ post)%list.
Proof.
  apply (python_functions_check python_submission process_orders_py).
  reflexivity.
Defined.

Lemma python_control_flow_check_witness :
  static_value (static_checks_python python_submission) "control_flow" = Some true <->
  exists kw c,
    kw ∈ python_keywords /\ PyStr.isspace c = true /\
    PyStr.contains (kw ++ String c EmptyString) process_orders_py = true.
Proof.
  apply (python_control_flow_check python_submission process_orders_py).
  reflexivity.
Defined.

Lemma pass_mark_within_one_witness :
  exists m,
    pass_mark 90 = Ok m /\ 7 * 90 / 10 - 1 <= m <= 7 * 90 / 10 /\
    (90 mod 10 <> 0 -> m = 7 * 90 / 10).
Proof. apply (pass_mark_within_one 90). lia. Defined.

Lemma approx_needs_nonneg_tolerance_witness :
  exists ok,
    approx no_float (JInt 1) (JInt 1) (S754_infinity true) = Ok ok /\ ok = false.
Proof.
  eexists. split; [reflexivity|].
  apply (approx_needs_nonneg_tolerance no_float (JInt 1) (JInt 1) (S754_infinity true));
    reflexivity.
Defined.

Lemma approx_of_equal_values_witness :
  approx no_float (JFloat PyFloat.lit_303_47) (JFloat PyFloat.lit_303_47) tol_0_01
  = Ok (finite_float PyFloat.lit_303_47 && nonneg_tolerance tol_0_01).
Proof.
  apply (approx_of_equal_values no_float (JFloat PyFloat.lit_303_47) PyFloat.lit_303_47
           tol_0_01).
  reflexivity.
Defined.

Lemma java_only_model_run :
  report_summary
    (main interpreter good_program load_summary no_float plain_format
          None rubric_100 java_only_model)
  = Some (java, 50, 100, false, 1, [true; false; true; false; false; true; true]).
Proof. vm_compute. reflexivity. Qed.

Lemma java_report_witness :
  exists d status w',
    main interpreter good_program load_summary no_float plain_format
         None rubric_100 java_only_model = (Ok (Report d, status), w') /\
    java_only_model !! "OrderProcessor.java" = None /\
    run_logs d = "OrderProcessor.java not found" /\
    recorded_pass d "file_io" = false /\
    recorded_pass d "control_flow" = false /\
    recorded_pass d "analytics_correctness" = false.
Proof.
  destruct (report_summary_inv _ _ _ _ _ _ _ java_only_model_run)
    as (d & w' & Hrun & Hlang & _).
  exists d, 1, w'. split; [exact Hrun|].
  exact (java_report_never_ran _ _ _ _ _ _ _ _ _ _ _ Hrun Hlang).
Defined.

Lemma approx_symmetric_witness :
  approx no_float (JInt 300) (JFloat PyFloat.lit_303_47) tol_0_01
  = approx no_float (JFloat PyFloat.lit_303_47) (JInt 300) tol_0_01.
Proof.
  apply (approx_symmetric no_float (JInt 300) (JFloat PyFloat.lit_303_47) tol_0_01
           (binary_normalize 53 1024 300 0 false) PyFloat.lit_303_47);
    reflexivity.
Defined.
